(** * Cricket tactical analytics: pitch physics, player scoring, match-up
      aggregation and match-file ingestion

    A shallow embedding of the analytics core of three Streamlit scripts:

    - [app.py]: the venue catalogue [VENUES_DATABASE],
      [CricketAI.calculate_pitch_physics] and [CricketAI.player_dna_eval];
    - [robust_cricai.py]: [analyze_matchup];
    - [robust_cricaii.py]: [get_cleaned_data] and the phase binning of the
      dashboard ([pd.cut] followed by a categorical [groupby]).

    Numbers are modelled as Python has them.  A Python [int] is a [Z].  A
    Python [float] is an IEEE 754 binary64 value, here a primitive [float]
    with the kernel's correctly rounded operations, so that rounding is part
    of the model and a result can be compared with the decimal the source (or
    a reader) writes, which denotes the nearest binary64 value. *)

From Stdlib Require Import ZArith Floats Lia.
From stdpp Require Import base list strings gmap sorting.

Set Warnings "-inexact-float".
Local Open Scope Z_scope.

(** ** Python numbers *)

Module PyNum.

(** [float(z)]: the integer rounded to the nearest binary64 value, ties to
    even.  It is exact for [|z| <= 2^53]; CPython raises OverflowError where
    this conversion reaches infinity, far beyond every value met here. *)
Definition float_of_Z (z : Z) : float :=
  SF2Prim (binary_normalize prec emax z 0 false).

(** [a / b] on two ints (true division).  The operands met in these scripts
    are slider values, catalogue altitudes, run totals and row counts, all
    exactly representable, and there the correctly rounded quotient CPython
    and NumPy return is the IEEE quotient of the converted operands. *)
Definition truediv (a b : Z) : float :=
  (float_of_Z a / float_of_Z b)%float.

(** A value that is an int on one path and a float on another. *)
Inductive pynum : Type :=
  | PyInt (z : Z)
  | PyFloat (f : float).

(** [max(0, x)] for a float [x]: the builtin keeps its first argument, the
    int [0], unless a later one compares strictly greater. *)
Definition max0 (x : float) : pynum :=
  if (0 <? x)%float then PyFloat x else PyInt 0.

(** [max(0, min(100, score))] on ints. *)
Definition clamp_0_100 (score : Z) : Z :=
  let m := if score <? 100 then score else 100 in
  if 0 <? m then m else 0.

End PyNum.

(** ** app.py: venue catalogue and pitch physics *)

Module App.
Import PyNum.

Record Venue : Type := {
  soil : string;
  clay : float;
  altitude : Z;
  avg_temp : Z;
  drainage : string
}.

Definition VENUES_DATABASE : gmap string Venue :=
  list_to_map [
    ("Wankhede, Mumbai",
      {| soil := "Red"; clay := 0.40; altitude := 10; avg_temp := 30;
         drainage := "High" |});
    ("Chepauk, Chennai",
      {| soil := "Black"; clay := 0.70; altitude := 5; avg_temp := 33;
         drainage := "Medium" |});
    ("Perth (Optus), AUS",
      {| soil := "Clay-Heavy"; clay := 0.80; altitude := 20; avg_temp := 28;
         drainage := "Extreme" |});
    ("Lord's, London",
      {| soil := "Loam"; clay := 0.30; altitude := 35; avg_temp := 22;
         drainage := "Low" |})
  ].

(** The dict [{"swing": .., "spin": .., "dew": ..}] the function returns. *)
Record Physics : Type := {
  swing : pynum;
  spin : float;
  dew : float
}.

(** The body of [calculate_pitch_physics] once the venue [v] is looked up.
    [temp], [humidity] and [clouds] are the ints the sliders supply.  Line 32
    reads the wall clock twice, [datetime.now().hour >= 18 or
    datetime.now().hour <= 4]: [hour1] is the first reading and [hour2] the
    second, which [or] consults only when the first test fails. *)
Definition pitch_physics (v : Venue) (temp humidity clouds : Z)
    (hour1 hour2 : Z) : Physics :=
  let cracked := String.eqb (soil v) "Black" && (31 <? temp) in
  let spin_index := (0.4 + (if cracked then 0.4 else 0))%float in
  let base_swing := (truediv humidity 100 * truediv clouds 100)%float in
  let altitude_penalty := truediv (altitude v) 2000 in
  let swing_prob := max0 (base_swing - altitude_penalty)%float in
  let is_night := (18 <=? hour1) || (hour2 <=? 4) in
  let dewy := is_night && (70 <? humidity) in
  let dew_factor := (if dewy then 0.85 else 0.1)%float in
  {| swing := swing_prob; spin := spin_index; dew := dew_factor |}.

(** [VENUES_DATABASE[venue_name]] raises KeyError on an unknown name: [None]. *)
Definition calculate_pitch_physics (venue_name : string)
    (temp humidity clouds : Z) (hour1 hour2 : Z) : option Physics :=
  v ← VENUES_DATABASE !! venue_name;
  Some (pitch_physics v temp humidity clouds hour1 hour2).

(** The test [0 < base_swing - altitude_penalty] that [max] makes. *)
Definition swing_positive (alt humidity clouds : Z) : bool :=
  (0 <? truediv humidity 100 * truediv clouds 100 - truediv alt 2000)%float.

(** The three alert strings of [player_dna_eval]. *)
Definition CHOKE_ALERT : string :=
  "🚩 **CHOKE ALERT:** High failure probability under dew/pressure.".
Definition SPIN_TRAP : string :=
  "🌀 **SPIN TRAP:** Batter likely to be suffocated by spin on this surface.".
Definition ACCELERATOR : string :=
  "🚀 **ACCELERATOR:** Elite ability to shift gears in death overs.".

(** The two locals [score] and [alerts] that the three [if] statements of
    [player_dna_eval] update in place. *)
Definition Tally : Type := (Z * list string)%type.

(** Lines 43-45, "CHOKE LOGIC". *)
Definition choke_logic (pressure : Z) (physics : Physics) (t : Tally) : Tally :=
  if (pressure <? 45) && (0.7 <? dew physics)%float
  then (t.1 - 25, t.2 ++ [CHOKE_ALERT])
  else t.

(** Lines 48-50, "SPIN-CHOKE". *)
Definition spin_choke (spin_skill : Z) (physics : Physics) (t : Tally) : Tally :=
  if (0.7 <? spin physics)%float && (spin_skill <? 50)
  then (t.1 - 20, t.2 ++ [SPIN_TRAP])
  else t.

(** Lines 53-55, "ACCELERATION". *)
Definition acceleration (accel_rating : Z) (t : Tally) : Tally :=
  if 80 <? accel_rating
  then (t.1 + 15, t.2 ++ [ACCELERATOR])
  else t.

Definition player_dna_eval (role : string)
    (pressure spin_skill accel_rating : Z) (physics : Physics)
    : Z * list string :=
  let t0 : Tally := (80, []) in
  let t1 := choke_logic pressure physics t0 in
  let t2 := spin_choke spin_skill physics t1 in
  let t3 := acceleration accel_rating t2 in
  (clamp_0_100 t3.1, t3.2).

(** The predicates of the three rules. *)
Definition choke_fires (pressure : Z) (physics : Physics) : bool :=
  (pressure <? 45) && (0.7 <? dew physics)%float.
Definition trap_fires (spin_skill : Z) (physics : Physics) : bool :=
  (0.7 <? spin physics)%float && (spin_skill <? 50).
Definition accel_fires (accel_rating : Z) : bool := 80 <? accel_rating.

End App.

(** ** The delivery table

    One row of the ball-by-ball table the two match-up scripts query, with
    the columns they read.  [ball] is the over.ball position; pandas holds it
    as float64 when the file writes it with a decimal point (and the bin
    comparisons convert an integer column the same way).  [wicket_type] is
    [None] where the cell is missing (NaN). *)

Module Ledger.

Record Delivery : Type := {
  ball : float;
  striker : string;
  bowler : string;
  runs_off_bat : Z;
  wicket_type : option string
}.

(** [runs_off_bat] is a cell of an int64 column, and arithmetic on such a
    column wraps around: the result of an addition is its representative in
    [-2^63, 2^63) modulo 2^64. *)
Definition wrap64 (z : Z) : Z := (z + 2 ^ 63) mod 2 ^ 64 - 2 ^ 63.

(** [df['runs_off_bat'].sum()] (and the per-group sum of a [groupby]): an
    int64 accumulation, wrapping at each addition. *)
Definition sum_runs (df : list Delivery) : Z :=
  foldr (λ d acc, wrap64 (runs_off_bat d + acc)) 0 df.

(** The mathematical total of the runs of some rows, for comparison. *)
Definition exact_runs (df : list Delivery) : Z :=
  foldr (λ d acc, runs_off_bat d + acc) 0 df.

(** [len(df[mask])] as a Python int. *)
Definition count (P : Delivery → Prop) `{!∀ d, Decision (P d)}
    (df : list Delivery) : Z :=
  Z.of_nat (length (filter P df)).

(** [df[(df['striker'] == batsman) & (df['bowler'] == bowler)]]: the rows of
    one batter against one bowler, by exact string equality. *)
Definition head_to_head (df : list Delivery) (batsman bowler_name : string)
    : list Delivery :=
  filter (λ d, striker d = batsman ∧ bowler d = bowler_name) df.

End Ledger.

(** ** robust_cricaii.py: ingestion of the match files and phase binning *)

Module Ingest.

(** [s.endswith(suffix)]. *)
Definition endswith (s suffix : string) : bool :=
  let n := String.length s in
  let m := String.length suffix in
  (m <=? n)%nat && String.eqb (String.substring (n - m) m s) suffix.

(** [needle in s] on strings. *)
Fixpoint contains (needle s : string) : bool :=
  String.prefix needle s ||
  match s with
  | EmptyString => false
  | String _ s' => contains needle s'
  end.

(** A DataFrame: its column labels, its row index and its rows.  Ingestion
    never inspects the content of a row, so the row type is left open; a row
    stands for the record as its file gave it (laid on the union of the
    labels, it shows NaN under a label its file lacks). *)
Record Frame (Row : Type) : Type := {
  columns : list string;
  index : list Z;
  rows : list Row
}.
Arguments columns {Row} _.
Arguments index {Row} _.
Arguments rows {Row} _.

(** One entry of [z.namelist()] together with what [pd.read_csv(z.open(..))]
    does on it: [None] when opening or parsing raises. *)
Record Member (Row : Type) : Type := {
  filename : string;
  read_csv : option (Frame Row)
}.
Arguments filename {Row} _.
Arguments read_csv {Row} _.

Section GetCleanedData.
Context {Row : Type}.

(** Line 20: "ONLY read match files, ignore README and info files". *)
Definition is_match_file (name : string) : bool :=
  endswith name ".csv" && negb (endswith name "_info.csv")
  && negb (contains "README" name).

(** One iteration of the loop of lines 18-28 on the list being built. *)
Definition visit (match_data_list : list (Frame Row)) (m : Member Row)
    : list (Frame Row) :=
  if is_match_file (filename m) then
    match read_csv m with
    | Some df =>
      if bool_decide ("striker" ∈ columns df)
         && bool_decide ("bowler" ∈ columns df)
      then match_data_list ++ [df]
      else match_data_list
    | None => match_data_list
    end
  else match_data_list.

(** What a member contributes to [match_data_list]: the frame that [visit]
    appends for it, if any. *)
Definition accepted (m : Member Row) : option (Frame Row) :=
  df ← read_csv m;
  guard (is_match_file (filename m) = true
         ∧ "striker" ∈ columns df ∧ "bowler" ∈ columns df);;
  Some df.

(** [pd.concat(frames, ignore_index=..)]: ValueError on an empty list;
    otherwise the rows in order under the union of the column labels, in
    order of first appearance.  With [ignore_index=True] the rows are
    renumbered 0, 1, 2, ...; without it each row keeps the index label it
    had in its own frame.  A row holds the cells it has under the labels of
    its own frame; a label of the union that its frame lacks reads NaN for
    it and is not stored, so aligning the rows to the union leaves them as
    they are. *)
Definition pd_concat (ignore_index : bool) (frames : list (Frame Row))
    : option (Frame Row) :=
  match frames with
  | [] => None
  | _ :: _ =>
    let all_rows := concat (rows <$> frames) in
    Some {|
      columns :=
        foldl (λ acc df, acc ++ filter (λ c, c ∉ acc) (columns df)) [] frames;
      index :=
        if ignore_index then seqZ 0 (Z.of_nat (length all_rows))
        else concat (index <$> frames);
      rows := all_rows
    |}
  end.

(** [pd.DataFrame()]. *)
Definition empty_frame : Frame Row :=
  {| columns := []; index := []; rows := [] |}.

(** [get_cleaned_data] from the archive's name list on.  The outer handler
    turns the ValueError of an empty concatenation into the empty frame. *)
Definition get_cleaned_data (namelist : list (Member Row)) : Frame Row :=
  let match_data_list := foldl visit [] (take 150 namelist) in
  match pd_concat true match_data_list with
  | Some data => data
  | None => empty_frame
  end.

End GetCleanedData.

(** The phase binning of lines 78-80. *)

Definition bins : list float := [0; 6; 15; 20]%float.
Definition labels : list string := ["Powerplay"; "Middle"; "Death"].

(** [a.searchsorted(x, side='left')] on a sorted array: how many leading
    entries lie strictly below [x].  NaN lies below nothing here and is
    masked by [cut] either way. *)
Fixpoint searchsorted_left (a : list float) (x : float) : nat :=
  match a with
  | [] => 0
  | b :: a' => if (b <? x)%float then S (searchsorted_left a' x) else 0
  end.

(** [pd.cut(x, bins=[0, 6, 15, 20], labels=[..])] on one value, right-closed
    intervals: [None] is the missing category. *)
Definition cut (x : float) : option string :=
  let ids := searchsorted_left bins x in
  if (ids =? 0)%nat || (ids =? length bins)%nat then None
  else labels !! (ids - 1)%nat.

(** [b_stats.groupby('phase', observed=False)['runs_off_bat'].sum()
    .reset_index()] on the rows of [batsman]: one line per category, in
    category order; rows whose phase is missing belong to no group. *)
Definition phase_performance (data : list Ledger.Delivery)
    (batsman : string) : list (string * Z) :=
  let b_stats := filter (λ d, Ledger.striker d = batsman) data in
  (λ phase,
     (phase,
      Ledger.sum_runs
        (filter (λ d, cut (Ledger.ball d) = Some phase) b_stats)))
  <$> labels.

(** The three right-closed intervals the bin edges [0, 6, 15, 20] delimit,
    written as comparisons on the position. *)
Definition interval_label (x : float) : option string :=
  if (0 <? x)%float && (x <=? 6)%float then Some "Powerplay"
  else if (6 <? x)%float && (x <=? 15)%float then Some "Middle"
  else if (15 <? x)%float && (x <=? 20)%float then Some "Death"
  else None.

(** The range (0, 20] the bins cover. *)
Definition in_bins (x : float) : bool := (0 <? x)%float && (x <=? 20)%float.

(** The range [1, 20] that the specification names as in-range. *)
Definition in_1_20 (x : float) : bool := (1 <=? x)%float && (x <=? 20)%float.

(** The total of a phase table's [runs_off_bat] column. *)
Definition total_runs (table : list (string * Z)) : Z :=
  foldr (λ line acc, line.2 + acc) 0 table.

(** [cut] as a cascade of the four strict comparisons [searchsorted] makes. *)
Definition cascade (x : float) : option string :=
  if (0 <? x)%float then
    if (6 <? x)%float then
      if (15 <? x)%float then
        if (20 <? x)%float then None else Some "Death"
      else Some "Middle"
    else Some "Powerplay"
  else None.

(** The cases the ordered bin edges leave: how many edges lie below [x]. *)
Inductive below (x : float) : bool → bool → bool → bool → Prop :=
  | below_0 : below x false false false false
  | below_1 : below x true false false false
  | below_2 : below x true true false false
  | below_3 : below x true true true false
  | below_4 : below x true true true true.

(** The lines of the phase table over a list of rows. *)
Definition phase_lines (l : list Ledger.Delivery) : list (string * Z) :=
  (λ phase,
     (phase,
      Ledger.sum_runs (filter (λ d, cut (Ledger.ball d) = Some phase) l)))
  <$> labels.

(** Two parsed match files: one with the standard columns, one that lacks
    the bowler column. *)
Definition Frame_335982 : Frame (list string) :=
  {| columns := ["match_id"; "ball"; "striker"; "bowler"; "runs_off_bat"];
     index := [0; 1];
     rows := [["335982"; "0.1"; "SC Ganguly"; "P Kumar"; "0"];
              ["335982"; "0.2"; "BB McCullum"; "P Kumar"; "4"]] |}.

Definition match_335982 : Member (list string) :=
  {| filename := "335982.csv"; read_csv := Some Frame_335982 |}.

Definition match_335984 : Member (list string) :=
  {| filename := "335984.csv";
     read_csv :=
       Some {| columns := ["match_id"; "ball"; "striker"; "bowler";
                           "runs_off_bat"; "wicket_type"];
               index := [0];
               rows := [["335984"; "0.1"; "G Gambhir"; "B Lee"; "0"; ""]] |}
  |}.

Definition match_without_bowler : Member (list string) :=
  {| filename := "335983.csv";
     read_csv :=
       Some {| columns := ["match_id"; "ball"; "striker"; "runs_off_bat"];
               index := [0];
               rows := [["335983"; "0.1"; "PA Patel"; "1"]] |} |}.

(** Batter "A" in the first over (positions 0.1 and 0.4) and the eighth. *)
Definition first_over : list Ledger.Delivery :=
  [ {| Ledger.ball := 0.1; Ledger.striker := "A"; Ledger.bowler := "B";
       Ledger.runs_off_bat := 4; Ledger.wicket_type := None |};
    {| Ledger.ball := 0.4; Ledger.striker := "A"; Ledger.bowler := "B";
       Ledger.runs_off_bat := 1; Ledger.wicket_type := None |};
    {| Ledger.ball := 7.2; Ledger.striker := "A"; Ledger.bowler := "C";
       Ledger.runs_off_bat := 2; Ledger.wicket_type := None |} ].

(** Two deliveries of 2^62 runs each in the second over, as an int64 column
    can hold them. *)
Definition second_over_huge : list Ledger.Delivery :=
  [ {| Ledger.ball := 1.1; Ledger.striker := "A"; Ledger.bowler := "B";
       Ledger.runs_off_bat := 2 ^ 62; Ledger.wicket_type := None |};
    {| Ledger.ball := 1.2; Ledger.striker := "A"; Ledger.bowler := "B";
       Ledger.runs_off_bat := 2 ^ 62; Ledger.wicket_type := None |} ].

End Ingest.

(** ** robust_cricai.py: head-to-head statistics *)

Module Matchup.
Import PyNum Ingest.

(** The dict [stats] with its six keys. *)
Record Stats : Type := {
  Balls_Faced : Z;
  Runs_Scored : Z;
  Dismissals : Z;
  Dots : Z;
  Boundaries : Z;
  Strike_Rate : float
}.

Definition NO_H2H : string :=
  "No historical H2H data found. Switching to Skill-Type analysis...".
Definition H2H_FOUND : string := "H2H Data Found".

(** [df[label]] on a frame without that column raises [KeyError(label)]. *)
Inductive Raised : Type :=
  | KeyError (label : string).

Definition has_column (df : Frame Ledger.Delivery) (label : string) : bool :=
  bool_decide (label ∈ columns df).

(** [analyze_matchup] on a frame of deliveries.  A field of a row is read
    only under a label the frame has: the function indexes ['striker'] and
    ['bowler'] first, and ['runs_off_bat'] and ['wicket_type'] only once the
    selection is not empty.  [inl] is the exception raised, [inr] the pair
    returned.  [Runs Scored] is a numpy int64; dividing it by the Python int
    [Balls Faced] converts both to float64 and divides, as [truediv] does. *)
Definition analyze_matchup (df : Frame Ledger.Delivery)
    (batsman bowler : string) : Raised + (option Stats * string) :=
  if negb (has_column df "striker") then inl (KeyError "striker")
  else if negb (has_column df "bowler") then inl (KeyError "bowler")
  else
    let h2h := Ledger.head_to_head (rows df) batsman bowler in
    match h2h with
    | [] => inr (None, NO_H2H)
    | _ :: _ =>
      if negb (has_column df "runs_off_bat")
      then inl (KeyError "runs_off_bat")
      else if negb (has_column df "wicket_type")
      then inl (KeyError "wicket_type")
      else
        let balls := Z.of_nat (length h2h) in
        let runs := Ledger.sum_runs h2h in
        inr (Some {|
               Balls_Faced := balls;
               Runs_Scored := runs;
               Dismissals :=
                 Ledger.count (λ d, is_Some (Ledger.wicket_type d)) h2h;
               Dots := Ledger.count (λ d, Ledger.runs_off_bat d = 0) h2h;
               Boundaries :=
                 Ledger.count (λ d, Ledger.runs_off_bat d ∈ [4; 6]) h2h;
               Strike_Rate := (truediv runs balls * 100)%float
             |}, H2H_FOUND)
    end.

(** The dict that [analyze_matchup] builds from a non-empty selection. *)
Definition stats_of (h2h : list Ledger.Delivery) : Stats :=
  {| Balls_Faced := Z.of_nat (length h2h);
     Runs_Scored := Ledger.sum_runs h2h;
     Dismissals := Ledger.count (λ d, is_Some (Ledger.wicket_type d)) h2h;
     Dots := Ledger.count (λ d, Ledger.runs_off_bat d = 0) h2h;
     Boundaries := Ledger.count (λ d, Ledger.runs_off_bat d ∈ [4; 6]) h2h;
     Strike_Rate :=
       (truediv (Ledger.sum_runs h2h) (Z.of_nat (length h2h)) * 100)%float
  |}.

(** The labels the two match-up scripts read. *)
Definition LEDGER_COLUMNS : list string :=
  ["ball"; "striker"; "bowler"; "runs_off_bat"; "wicket_type"].

(** The frame with those labels over the given rows, numbered from 0. *)
Definition ledger (records : list Ledger.Delivery) : Frame Ledger.Delivery :=
  {| columns := LEDGER_COLUMNS;
     index := seqZ 0 (Z.of_nat (length records));
     rows := records |}.

(** A delivery that takes no wicket. *)
Definition delivery (position : float) (batter from : string) (runs : Z)
    : Ledger.Delivery :=
  {| Ledger.ball := position; Ledger.striker := batter;
     Ledger.bowler := from; Ledger.runs_off_bat := runs;
     Ledger.wicket_type := None |}.

(** Five deliveries of batter "A" from bowler "B" with runs 1, 4, 0, 6, 0,
    among deliveries of other pairs. *)
Definition five_balls : list Ledger.Delivery :=
  [ delivery 0.1 "A" "B" 1; delivery 0.2 "C" "B" 2; delivery 0.3 "A" "B" 4;
    delivery 0.4 "A" "B" 0; delivery 0.5 "A" "D" 3; delivery 0.6 "A" "B" 6;
    delivery 1.1 "A" "B" 0 ].

(** Two deliveries of 2^62 runs each, as an int64 column can hold them. *)
Definition two_huge : list Ledger.Delivery :=
  [ delivery 0.1 "A" "B" (2 ^ 62); delivery 0.2 "A" "B" (2 ^ 62) ].

(** A frame with the striker and bowler columns but without wicket_type, as
    a file the ingestion accepts may be. *)
Definition no_wicket_column : Frame Ledger.Delivery :=
  {| columns := ["ball"; "striker"; "bowler"; "runs_off_bat"];
     index := [0];
     rows := [delivery 0.1 "A" "B" 1] |}.

End Matchup.

(** ** app.py: the dashboard read-outs (lines 78-87) *)

Module Dashboard.
Import PyNum App.

(** [int(x)] on a float: truncation toward zero; [None] where Python raises
    (OverflowError on an infinity, ValueError on NaN). *)
Definition int_of_float (x : float) : option Z :=
  match Prim2SF x with
  | S754_zero _ => Some 0
  | S754_finite s m e =>
    Some (cond_Zopp s
            (if 0 <=? e then Zpos m * 2 ^ e else Zpos m / 2 ^ (- e)))
  | S754_infinity _ | S754_nan => None
  end.

(** [int(physics['swing']*100)], the "Atmospheric Swing" percentage. *)
Definition swing_percent (physics : Physics) : option Z :=
  match swing physics with
  | PyInt z => Some (z * 100)
  | PyFloat f => int_of_float (f * 100)%float
  end.

(** [int(physics['spin']*100)], the "Surface Spin-Grip" percentage. *)
Definition spin_percent (physics : Physics) : option Z :=
  int_of_float (spin physics * 100)%float.

(** ["CRITICAL" if physics['dew'] > 0.7 else "Safe"]. *)
Definition dew_risk (physics : Physics) : string :=
  if (0.7 <? dew physics)%float then "CRITICAL" else "Safe".

(** The keys of [VENUES_DATABASE], the options of the venue box. *)
Definition VENUE_NAMES : list string :=
  ["Wankhede, Mumbai"; "Chepauk, Chennai"; "Perth (Optus), AUS";
   "Lord's, London"].

(** The checks made on one swing value when it is positive: it is below 1
    and its percentage is an integer from 0 to 99. *)
Definition swing_in_range (alt humidity clouds : Z) : bool :=
  let x := (truediv humidity 100 * truediv clouds 100
            - truediv alt 2000)%float in
  if (0 <? x)%float then
    (x <? 1)%float
    && match int_of_float (x * 100)%float with
       | Some n => (0 <=? n) && (n <=? 99)
       | None => false
       end
  else true.

End Dashboard.

(** ** robust_cricai.py: the plain loader (lines 9-15) *)

Module Loader.
Import Ingest.

Section GetHistoricalData.
Context {Row : Type}.

(** [z.namelist()[:100]] filtered by [if 'info' not in f]: the members
    the list comprehension of line 14 reads. *)
Definition selected (namelist : list (Member Row)) : list (Member Row) :=
  filter (λ m, contains "info" (filename m) = false) (take 100 namelist).

(** [pd.concat([...])], with the default [ignore_index=False].  Nothing
    catches a read that raises, nor the ValueError of [pd.concat] on an empty
    list: [None]. *)
Definition get_historical_data (namelist : list (Member Row))
    : option (Frame Row) :=
  frames ← mapM read_csv (selected namelist);
  pd_concat false frames.

End GetHistoricalData.

End Loader.

(** ** robust_cricaii.py: the scouting dashboard (lines 44-55 and 93-95) *)

Module Scout.
Import PyNum Ingest.

(** [Series.unique()]: the distinct values in order of first appearance. *)
Definition unique (l : list string) : list string :=
  foldl (λ seen x, if decide (x ∈ seen) then seen else seen ++ [x]) [] l.

(** The order of [sorted] on str: code point order, which on the UTF-8
    bytes of a [string] is the bytewise lexicographic order. *)
Definition str_le (a b : string) : Prop := String.leb a b = true.

#[global] Instance str_le_dec (a b : string) : Decision (str_le a b) :=
  decide (String.leb a b = true).

(** [sorted(data['striker'].unique())], the options of the batsman box. *)
Definition all_batsmen (data : list Ledger.Delivery) : list string :=
  merge_sort str_le (unique (Ledger.striker <$> data)).

(** [data[data['striker'] == batsman]]. *)
Definition b_stats (data : list Ledger.Delivery) (batsman : string)
    : list Ledger.Delivery :=
  filter (λ d, Ledger.striker d = batsman) data.

(** [Series.mean()] of an integer column given its total and its length.
    pandas accumulates the total in float64 (no int64 wrap-around), which is
    the float of the exact total while the partial sums stay below 2^53; the
    mean is the float quotient, NaN on an empty column. *)
Definition mean (total count : Z) : float :=
  (float_of_Z total / float_of_Z count)%float.

(** Line 93: the mean runs per ball of the Death rows, times 100. *)
Definition death_sr (data : list Ledger.Delivery) (batsman : string)
    : float :=
  let death :=
    filter (λ d, cut (Ledger.ball d) = Some "Death") (b_stats data batsman) in
  (mean (Ledger.exact_runs death) (Z.of_nat (length death)) * 100)%float.

(** Line 94: whether the "Elite Death Over Accelerator" line is shown. *)
Definition elite_death_accelerator (data : list Ledger.Delivery)
    (batsman : string) : bool :=
  (180 <? death_sr data batsman)%float.

End Scout.

(** * Properties *)

(** ** Order facts on binary64 values

    The comparisons of the primitive floats are specified on [spec_float];
    the facts below are what the bin edges and thresholds need. *)

Module FloatOrder.

Lemma SFcompare_swap (a b : spec_float) :
  SFcompare b a = CompOpp <$> SFcompare a b.
Proof.
  destruct a as [sa|sa| |sa ma ea], b as [sb|sb| |sb mb eb]; simpl;
    try (destruct sa); try (destruct sb); try reflexivity;
    rewrite (Z.compare_antisym ea eb); destruct (ea ?= eb); simpl;
    try reflexivity;
    rewrite (Pos.compare_cont_antisym ma mb Eq); simpl;
    try rewrite CompOpp_involutive; reflexivity.
Qed.

Lemma SFcompare_None (a b : spec_float) :
  SFcompare a b = None → a = S754_nan ∨ b = S754_nan.
Proof.
  destruct a as [sa|sa| |sa ma ea], b as [sb|sb| |sb mb eb];
    unfold SFcompare; intros H; try discriminate H; auto.
Qed.

(** Away from NaN, [x <= y] is the negation of [y < x]. *)
Lemma leb_negb_ltb (x y : float) :
  Prim2SF x ≠ S754_nan → Prim2SF y ≠ S754_nan →
  (x <=? y)%float = negb (y <? x)%float.
Proof.
  intros Hx Hy. rewrite leb_spec, ltb_spec. unfold SFleb, SFltb.
  rewrite (SFcompare_swap (Prim2SF x) (Prim2SF y)).
  destruct (SFcompare (Prim2SF x) (Prim2SF y)) as [[]|] eqn:E;
    try reflexivity.
  apply SFcompare_None in E as [E|E]; contradiction.
Qed.

Lemma ltb_0_not_nan (x : float) :
  (0 <? x)%float = true → Prim2SF x ≠ S754_nan.
Proof. rewrite ltb_spec. intros H E. rewrite E in H. discriminate H. Qed.

(** [c1 < x] gives [c2 < x] for two constants with [c2 < c1], by cases on
    the sign and exponent of [x]; the mantissas are never unfolded. *)
Ltac float_chain c1 e1 c2 e2 :=
  rewrite !ltb_spec;
  change (Prim2SF c1) with e1; change (Prim2SF c2) with e2;
  let m := fresh "m" in
  let e := fresh "e" in
  let H := fresh "H" in
  destruct (Prim2SF _) as [[]|[]| |[] m e]; unfold SFltb, SFcompare;
  intros H; try discriminate H; try reflexivity;
  repeat match goal with
         | H : context [(?a ?= e)%Z] |- _ => destruct (Z.compare_spec a e)
         | |- context [(?a ?= e)%Z] => destruct (Z.compare_spec a e)
         end;
  try lia; try discriminate H; try reflexivity.

Lemma ltb_6_0 (x : float) : (6 <? x)%float = true → (0 <? x)%float = true.
Proof.
  float_chain 6%float (S754_finite false 6755399441055744 (-50))
              0%float (S754_zero false).
Qed.

Lemma ltb_15_6 (x : float) : (15 <? x)%float = true → (6 <? x)%float = true.
Proof.
  float_chain 15%float (S754_finite false 8444249301319680 (-49))
              6%float (S754_finite false 6755399441055744 (-50)).
Qed.

Lemma ltb_20_15 (x : float) : (20 <? x)%float = true → (15 <? x)%float = true.
Proof.
  float_chain 20%float (S754_finite false 5629499534213120 (-48))
              15%float (S754_finite false 8444249301319680 (-49)).
Qed.

Lemma leb_1_ltb_0 (x : float) : (1 <=? x)%float = true → (0 <? x)%float = true.
Proof.
  rewrite leb_spec, ltb_spec.
  change (Prim2SF 1) with (S754_finite false 4503599627370496 (-52)).
  change (Prim2SF 0) with (S754_zero false).
  destruct (Prim2SF x) as [[]|[]| |[] m e]; unfold SFleb, SFltb, SFcompare;
    intros H; try discriminate H; reflexivity.
Qed.

(** Two floats that a comparison tells apart are different. *)
Lemma ltb_neq (x y c : float) :
  (x <? c)%float = true → (y <? c)%float = false → x ≠ y.
Proof. intros Hx Hy ->. rewrite Hx in Hy. discriminate Hy. Qed.

End FloatOrder.

(** ** app.py: pitch physics *)

Module AppFacts.
Import PyNum App.

Lemma float_0_4_neq_0_8 : (0.4 ≠ 0.8)%float.
Proof. apply (FloatOrder.ltb_neq _ _ 0.5); reflexivity. Qed.

Lemma float_0_1_neq_0_85 : (0.1 ≠ 0.85)%float.
Proof. apply (FloatOrder.ltb_neq _ _ 0.5); reflexivity. Qed.

(** C6. For every venue record and every temperature the spin index is 0.8
    exactly when the soil is "Black" and the temperature exceeds 31, it is
    0.4 exactly when that fails, and it takes no other value. *)
Theorem spin_index_step (v : Venue) (temp humidity clouds hour1 hour2 : Z) :
  let s := spin (pitch_physics v temp humidity clouds hour1 hour2) in
  (s = 0.8%float ↔ soil v = "Black" ∧ 31 < temp)
  ∧ (s = 0.4%float ↔ ¬ (soil v = "Black" ∧ 31 < temp))
  ∧ (s = 0.4%float ∨ s = 0.8%float).
Proof.
  cbn -[String.eqb]. 
  destruct (String.eqb_spec (soil v) "Black") as [Hs|Hs];
    destruct (Z.ltb_spec 31 temp) as [Ht|Ht]; cbn;
    change (0.4 + 0.4)%float with 0.8%float;
    change (0.4 + 0)%float with 0.4%float;
    pose proof float_0_4_neq_0_8 as Hne;
    repeat split; auto; try tauto; try lia; try congruence;
    intros; try lia; try tauto; try (exfalso; congruence).
Qed.

(** C8. With both clock readings in the hour [hour], the dew factor is 0.85
    exactly when ([hour >= 18] or [hour <= 4]) and humidity exceeds 70, and
    0.1 exactly when that fails; whatever the two readings are, it is one of
    0.1 and 0.85. *)
Theorem dew_factor_step (v : Venue) (temp humidity clouds hour : Z) :
  let d := dew (pitch_physics v temp humidity clouds hour hour) in
  (d = 0.85%float ↔ (18 ≤ hour ∨ hour ≤ 4) ∧ 70 < humidity)
  ∧ (d = 0.1%float ↔ ¬ ((18 ≤ hour ∨ hour ≤ 4) ∧ 70 < humidity))
  ∧ (∀ hour1 hour2,
       dew (pitch_physics v temp humidity clouds hour1 hour2) = 0.1%float
       ∨ dew (pitch_physics v temp humidity clouds hour1 hour2) = 0.85%float).
Proof.
  cbn. pose proof float_0_1_neq_0_85 as Hne.
  split; [|split].
  - destruct (Z.leb_spec 18 hour), (Z.leb_spec hour 4),
      (Z.ltb_spec 70 humidity); cbn; split; intros; try lia; auto;
      exfalso; congruence.
  - destruct (Z.leb_spec 18 hour), (Z.leb_spec hour 4),
      (Z.ltb_spec 70 humidity); cbn; split; intros; try lia; auto;
      exfalso; congruence.
  - intros hour1 hour2.
    destruct ((18 <=? hour1) || (hour2 <=? 4)), (70 <? humidity); cbn; auto.
Qed.

End AppFacts.

Module SwingFacts.
Import PyNum App.

(** The catalogue has exactly the four venues of the source. *)
Lemma catalogue_altitudes (name : string) (v : Venue) :
  VENUES_DATABASE !! name = Some v → altitude v ∈ [10; 5; 20; 35].
Proof.
  intros H. unfold VENUES_DATABASE in H. apply elem_of_list_to_map_2 in H.
  repeat (apply elem_of_cons in H as [H|H]);
    try (injection H as -> ->; cbn; set_solver).
  by apply elem_of_nil in H.
Qed.

(** With no humidity or no cloud the test fails at every catalogue altitude,
    for each percentage on the other slider: 4 x 101 x 2 evaluations. *)
Lemma swing_not_positive_at_zero (alt c : Z) :
  alt ∈ [10; 5; 20; 35] → 0 ≤ c ≤ 100 →
  swing_positive alt 0 c = false ∧ swing_positive alt c 0 = false.
Proof.
  intros Halt Hc.
  assert (Hall :
    Forall (λ alt, Forall (λ c,
      swing_positive alt 0 c = false ∧ swing_positive alt c 0 = false)
      (seqZ 0 101)) [10; 5; 20; 35]).
  { apply Forall_forall. intros a Ha. apply Forall_forall. intros k Hk.
    assert (Hb : forallb (λ a, forallb (λ k,
        negb (swing_positive a 0 k) && negb (swing_positive a k 0))
        (seqZ 0 101)) [10; 5; 20; 35] = true) by (vm_compute; reflexivity).
    rewrite forallb_forall in Hb. apply list_elem_of_In in Ha, Hk.
    specialize (Hb a Ha). rewrite forallb_forall in Hb.
    specialize (Hb k Hk). apply andb_prop in Hb as [H1 H2].
    apply negb_true_iff in H1, H2. auto. }
  rewrite Forall_forall in Hall. specialize (Hall alt Halt).
  rewrite Forall_forall in Hall. apply Hall. apply elem_of_seqZ. lia.
Qed.

(** C7, as the code computes it. For every catalogue venue (each has a
    non-negative altitude) and humidity and cloud cover in [0,100], the swing
    probability is [max(0, (humidity/100) * (clouds/100) - altitude/2000)]
    with every operation rounded to binary64; it is the int 0 when humidity
    or cloud cover is 0; and for "Chepauk, Chennai" (Black soil, altitude 5)
    at temperature 33, humidity 75, clouds 20 it is 0.14750000000000002, the
    binary64 value next above 0.1475, with spin index 0.8. *)
Theorem swing_probability_formula (name : string) (v : Venue)
    (temp humidity clouds hour1 hour2 : Z) :
  VENUES_DATABASE !! name = Some v →
  0 ≤ humidity ≤ 100 → 0 ≤ clouds ≤ 100 →
  let p := pitch_physics v temp humidity clouds hour1 hour2 in
  0 ≤ altitude v
  ∧ calculate_pitch_physics name temp humidity clouds hour1 hour2 = Some p
  ∧ swing p =
      max0 (truediv humidity 100 * truediv clouds 100
            - truediv (altitude v) 2000)%float
  ∧ (humidity = 0 ∨ clouds = 0 → swing p = PyInt 0)
  ∧ (name = "Chepauk, Chennai" → temp = 33 → humidity = 75 → clouds = 20 →
     soil v = "Black" ∧ altitude v = 5
     ∧ swing p = PyFloat 0.14750000000000002
     ∧ next_up 0.1475 = 0.14750000000000002%float
     ∧ spin p = 0.8%float).
Proof.
  intros Hv Hh Hc p. pose proof (catalogue_altitudes name v Hv) as Halt.
  split; [|split; [|split; [|split]]].
  - clear -Halt.
    repeat (apply elem_of_cons in Halt as [->|Halt]); try lia.
    by apply elem_of_nil in Halt.
  - unfold calculate_pitch_physics. rewrite Hv. reflexivity.
  - reflexivity.
  - intros Hz. subst p. cbn [swing pitch_physics]. unfold max0.
    change (0 <? truediv humidity 100 * truediv clouds 100
                 - truediv (altitude v) 2000)%float
      with (swing_positive (altitude v) humidity clouds).
    destruct Hz as [-> | ->].
    + by rewrite (proj1 (swing_not_positive_at_zero _ clouds Halt Hc)).
    + by rewrite (proj2 (swing_not_positive_at_zero _ humidity Halt Hh)).
  - intros -> -> -> ->. vm_compute in Hv. injection Hv as <-.
    subst p. vm_compute. auto.
Qed.

(** The theorem at the catalogue's Chennai venue. *)
Lemma swing_probability_formula_witness :
  swing (pitch_physics
           {| soil := "Black"; clay := 0.70; altitude := 5; avg_temp := 33;
              drainage := "Medium" |} 33 75 20 12 12)
  = PyFloat 0.14750000000000002.
Proof.
  assert (H : VENUES_DATABASE !! "Chepauk, Chennai"
              = Some {| soil := "Black"; clay := 0.70; altitude := 5;
                        avg_temp := 33; drainage := "Medium" |})
    by (vm_compute; reflexivity).
  assert (Hh : 0 ≤ 75 ≤ 100) by lia.
  assert (Hc : 0 ≤ 20 ≤ 100) by lia.
  pose proof (swing_probability_formula _ _ 33 75 20 12 12 H Hh Hc) as T.
  cbv zeta in T.
  destruct T as (_ & _ & _ & _ & T).
  destruct (T eq_refl eq_refl eq_refl eq_refl) as (_ & _ & E & _).
  exact E.
Defined.

(** C7 as stated fails at its own example: the value computed for Chepauk at
    33 degrees, humidity 75 and clouds 20 is not the float 0.1475 (Python's
    [==] tells them apart), it is one unit in the last place above. *)
Lemma swing_example_is_not_0_1475 :
  ∃ p f,
    calculate_pitch_physics "Chepauk, Chennai" 33 75 20 12 12 = Some p
    ∧ swing p = PyFloat f
    ∧ (f =? 0.1475)%float = false
    ∧ swing p ≠ PyFloat 0.1475.
Proof.
  eexists _, _. split; [vm_compute; reflexivity|].
  split; [vm_compute; reflexivity|]. split; [reflexivity|].
  intros H.
  apply (f_equal (λ n, match n with
                       | PyFloat f => (f <? 0.14750000000000002)%float
                       | PyInt _ => false
                       end)) in H.
  vm_compute in H. discriminate H.
Qed.

End SwingFacts.

(** ** app.py: the tactical scorer *)

Module ScorerFacts.
Import PyNum App.

Lemma clamp_0_100_spec (score : Z) :
  clamp_0_100 score = Z.max 0 (Z.min 100 score).
Proof.
  unfold clamp_0_100.
  destruct (Z.ltb_spec score 100); destruct (Z.ltb_spec 0 score); try lia;
    destruct (Z.ltb_spec 0 100); lia.
Qed.

Lemma clamp_0_100_range (score : Z) : 0 ≤ clamp_0_100 score ≤ 100.
Proof. rewrite clamp_0_100_spec. lia. Qed.

(** Each step adds its own adjustment and appends its own alert, whatever
    the tally it starts from. *)
Lemma choke_logic_step pressure physics (t : Tally) :
  choke_logic pressure physics t =
  (t.1 - (if choke_fires pressure physics then 25 else 0),
   t.2 ++ (if choke_fires pressure physics then [CHOKE_ALERT] else [])).
Proof.
  unfold choke_logic, choke_fires. destruct t as [score alerts].
  destruct (_ && _); cbn; [reflexivity|]. by rewrite Z.sub_0_r, app_nil_r.
Qed.

Lemma spin_choke_step spin_skill physics (t : Tally) :
  spin_choke spin_skill physics t =
  (t.1 - (if trap_fires spin_skill physics then 20 else 0),
   t.2 ++ (if trap_fires spin_skill physics then [SPIN_TRAP] else [])).
Proof.
  unfold spin_choke, trap_fires. destruct t as [score alerts].
  destruct (_ && _); cbn; [reflexivity|]. by rewrite Z.sub_0_r, app_nil_r.
Qed.

Lemma acceleration_step accel_rating (t : Tally) :
  acceleration accel_rating t =
  (t.1 + (if accel_fires accel_rating then 15 else 0),
   t.2 ++ (if accel_fires accel_rating then [ACCELERATOR] else [])).
Proof.
  unfold acceleration, accel_fires. destruct t as [score alerts].
  destruct (_ <? _); cbn; [reflexivity|]. by rewrite Z.add_0_r, app_nil_r.
Qed.

(** C1. The scorer starts from 80 and applies the three rules in order:
    pressure < 45 and dew > 0.7 subtracts 25 and appends the choke alert;
    spin > 0.7 and spin skill < 50 subtracts 20 and appends the spin-trap
    alert; acceleration > 80 adds 15 and appends the accelerator alert; the
    score returned is the accumulated value clamped to [0,100]. With
    pressure 30 and dew 0.85 the choke rule fires and the tally after the
    first rule is 55 with the choke alert. *)
Theorem scorer_three_rules (role : string)
    (pressure spin_skill accel_rating : Z) (physics : Physics) :
  let choke := (pressure <? 45) && (0.7 <? dew physics)%float in
  let trap := (0.7 <? spin physics)%float && (spin_skill <? 50) in
  let accel := 80 <? accel_rating in
  player_dna_eval role pressure spin_skill accel_rating physics =
    (Z.max 0 (Z.min 100
       (80 - (if choke then 25 else 0) - (if trap then 20 else 0)
        + (if accel then 15 else 0))),
     (if choke then [CHOKE_ALERT] else [])
     ++ (if trap then [SPIN_TRAP] else [])
     ++ (if accel then [ACCELERATOR] else []))
  ∧ (∀ sw sp,
       let night := {| swing := sw; spin := sp; dew := 0.85 |} in
       choke_fires 30 night = true
       ∧ choke_logic 30 night (80, []) = (55, [CHOKE_ALERT])).
Proof.
  intros choke trap accel. split.
  - unfold player_dna_eval.
    rewrite acceleration_step, spin_choke_step, choke_logic_step.
    rewrite clamp_0_100_spec. cbn [fst snd].
    fold choke trap accel. unfold choke_fires, trap_fires, accel_fires.
    fold choke trap accel. by rewrite app_nil_l, <- app_assoc.
  - intros sw sp. split; reflexivity.
Qed.

(** C9. The score returned lies in [0,100] and the alerts returned are a
    subsequence of (choke, spin trap, accelerator), in that order. *)
Theorem scorer_range_and_order (role : string)
    (pressure spin_skill accel_rating : Z) (physics : Physics) :
  let r := player_dna_eval role pressure spin_skill accel_rating physics in
  0 ≤ r.1 ≤ 100
  ∧ sublist r.2 [CHOKE_ALERT; SPIN_TRAP; ACCELERATOR].
Proof.
  cbn zeta. split.
  - apply clamp_0_100_range.
  - unfold player_dna_eval. cbn [snd].
    rewrite acceleration_step, spin_choke_step, choke_logic_step. cbn [snd].
    destruct (choke_fires _ _), (trap_fires _ _), (accel_fires _); cbn;
      repeat constructor.
Qed.

(** C10. Two calls that differ only in the role return the same score and
    the same alerts. *)
Theorem scorer_ignores_role (role1 role2 : string)
    (pressure spin_skill accel_rating : Z) (physics : Physics) :
  player_dna_eval role1 pressure spin_skill accel_rating physics
  = player_dna_eval role2 pressure spin_skill accel_rating physics.
Proof. unfold player_dna_eval. reflexivity. Qed.

End ScorerFacts.

(** ** int64 arithmetic of the runs column *)

Module Int64Facts.

Lemma wrap64_range (z : Z) : - 2 ^ 63 ≤ Ledger.wrap64 z < 2 ^ 63.
Proof.
  unfold Ledger.wrap64.
  pose proof (Z.mod_pos_bound (z + 2 ^ 63) (2 ^ 64) ltac:(lia)). lia.
Qed.

Lemma wrap64_id (z : Z) : - 2 ^ 63 ≤ z < 2 ^ 63 → Ledger.wrap64 z = z.
Proof. intros Hz. unfold Ledger.wrap64. rewrite Z.mod_small; lia. Qed.

Lemma wrap64_add_r (a b : Z) :
  Ledger.wrap64 (a + Ledger.wrap64 b) = Ledger.wrap64 (a + b).
Proof.
  unfold Ledger.wrap64. f_equal.
  replace (a + ((b + 2 ^ 63) mod 2 ^ 64 - 2 ^ 63) + 2 ^ 63)
    with (a + (b + 2 ^ 63) mod 2 ^ 64) by lia.
  rewrite Zplus_mod_idemp_r. f_equal. lia.
Qed.

Lemma wrap64_add (a b : Z) :
  Ledger.wrap64 (Ledger.wrap64 a + Ledger.wrap64 b) = Ledger.wrap64 (a + b).
Proof.
  rewrite wrap64_add_r, Z.add_comm, wrap64_add_r. f_equal. lia.
Qed.

(** The wrapping accumulation is the wrapped exact total. *)
Lemma sum_runs_wrap (l : list Ledger.Delivery) :
  Ledger.sum_runs l = Ledger.wrap64 (Ledger.exact_runs l).
Proof.
  unfold Ledger.sum_runs, Ledger.exact_runs.
  induction l as [|d l IH]; [reflexivity|].
  cbn [foldr]. rewrite IH. apply wrap64_add_r.
Qed.

Lemma exact_runs_fmap (l : list Ledger.Delivery) :
  Ledger.exact_runs l = foldr Z.add 0 (Ledger.runs_off_bat <$> l).
Proof.
  unfold Ledger.exact_runs.
  induction l as [|d l IH]; cbn; [reflexivity|]. by rewrite <- IH.
Qed.

(** Without overflow the int64 sum is the exact total. *)
Lemma sum_runs_exact (l : list Ledger.Delivery) :
  - 2 ^ 63 ≤ Ledger.exact_runs l < 2 ^ 63 →
  Ledger.sum_runs l = Ledger.exact_runs l.
Proof. intros H. rewrite sum_runs_wrap. by apply wrap64_id. Qed.

Lemma exact_runs_Permutation (l l' : list Ledger.Delivery) :
  l ≡ₚ l' → Ledger.exact_runs l = Ledger.exact_runs l'.
Proof.
  unfold Ledger.exact_runs.
  induction 1 as [|x l l' _ IH|x y l|l l' l'' _ IH1 _ IH2]; cbn; lia.
Qed.

Lemma sum_runs_Permutation (l l' : list Ledger.Delivery) :
  l ≡ₚ l' → Ledger.sum_runs l = Ledger.sum_runs l'.
Proof.
  intros Hp. by rewrite !sum_runs_wrap, (exact_runs_Permutation _ _ Hp).
Qed.

Lemma exact_runs_nonneg (l : list Ledger.Delivery) :
  (∀ d, d ∈ l → 0 ≤ Ledger.runs_off_bat d) → 0 ≤ Ledger.exact_runs l.
Proof.
  unfold Ledger.exact_runs. induction l as [|a l IH]; intros Hl; cbn; [lia|].
  assert (0 ≤ Ledger.runs_off_bat a) by (apply Hl; left).
  assert (0 ≤ foldr (λ d acc, Ledger.runs_off_bat d + acc) 0 l)
    by (apply IH; intros d Hd; apply Hl; by right).
  lia.
Qed.

Lemma exact_runs_filter_le (P : Ledger.Delivery → Prop)
    `{!∀ d, Decision (P d)} (l : list Ledger.Delivery) :
  (∀ d, d ∈ l → 0 ≤ Ledger.runs_off_bat d) →
  0 ≤ Ledger.exact_runs (filter P l) ≤ Ledger.exact_runs l.
Proof.
  unfold Ledger.exact_runs. induction l as [|a l IH]; intros Hl; [cbn; lia|].
  assert (0 ≤ Ledger.runs_off_bat a) by (apply Hl; left).
  assert (0 ≤ foldr (λ d acc, Ledger.runs_off_bat d + acc) 0 (filter P l)
          ≤ foldr (λ d acc, Ledger.runs_off_bat d + acc) 0 l)
    by (apply IH; intros d Hd; apply Hl; by right).
  rewrite filter_cons. destruct (decide (P a)); cbn; lia.
Qed.

End Int64Facts.

(** ** robust_cricai.py: head-to-head statistics *)

Module MatchupFacts.
Import PyNum Ingest Matchup.

Lemma has_column_true (df : Frame Ledger.Delivery) (label : string) :
  has_column df label = true ↔ label ∈ columns df.
Proof. unfold has_column. apply bool_decide_eq_true. Qed.

Lemma has_column_false (df : Frame Ledger.Delivery) (label : string) :
  has_column df label = false ↔ label ∉ columns df.
Proof. unfold has_column. apply bool_decide_eq_false. Qed.

Lemma analyze_matchup_found df batsman bowler :
  "striker" ∈ columns df → "bowler" ∈ columns df →
  "runs_off_bat" ∈ columns df → "wicket_type" ∈ columns df →
  Ledger.head_to_head (rows df) batsman bowler ≠ [] →
  analyze_matchup df batsman bowler =
  inr (Some (stats_of (Ledger.head_to_head (rows df) batsman bowler)),
       H2H_FOUND).
Proof.
  intros Hs Hb Hr Hw Hne. unfold analyze_matchup.
  rewrite !(proj2 (has_column_true _ _)) by assumption. cbn [negb].
  destruct (Ledger.head_to_head (rows df) batsman bowler);
    [congruence|reflexivity].
Qed.

Lemma analyze_matchup_not_found df batsman bowler :
  "striker" ∈ columns df → "bowler" ∈ columns df →
  Ledger.head_to_head (rows df) batsman bowler = [] →
  analyze_matchup df batsman bowler = inr (None, NO_H2H).
Proof.
  intros Hs Hb Hnil. unfold analyze_matchup.
  rewrite !(proj2 (has_column_true _ _)) by assumption. cbn [negb].
  by rewrite Hnil.
Qed.

(** What a returned pair tells about the frame. *)
Lemma analyze_matchup_returns df batsman bowler result status :
  analyze_matchup df batsman bowler = inr (result, status) →
  "striker" ∈ columns df ∧ "bowler" ∈ columns df
  ∧ ((Ledger.head_to_head (rows df) batsman bowler = []
      ∧ result = None ∧ status = NO_H2H)
     ∨ (Ledger.head_to_head (rows df) batsman bowler ≠ []
        ∧ "runs_off_bat" ∈ columns df ∧ "wicket_type" ∈ columns df
        ∧ result
          = Some (stats_of (Ledger.head_to_head (rows df) batsman bowler))
        ∧ status = H2H_FOUND)).
Proof.
  unfold analyze_matchup.
  destruct (has_column df "striker") eqn:Hs; [|discriminate].
  destruct (has_column df "bowler") eqn:Hb; [|discriminate].
  apply has_column_true in Hs, Hb. cbn [negb].
  destruct (Ledger.head_to_head (rows df) batsman bowler) as [|d l] eqn:E.
  - intros [= <- <-]. split; [exact Hs|]. split; [exact Hb|]. left. done.
  - destruct (has_column df "runs_off_bat") eqn:Hr; [|discriminate].
    destruct (has_column df "wicket_type") eqn:Hw; [|discriminate].
    apply has_column_true in Hr, Hw. cbn [negb].
    intros [= <- <-]. split; [exact Hs|]. split; [exact Hb|]. right.
    split; [discriminate|]. repeat split; assumption || reflexivity.
Qed.

Lemma head_to_head_nil (l : list Ledger.Delivery) (batsman bowler : string) :
  Ledger.head_to_head l batsman bowler = []
  ↔ ∀ d, d ∈ l →
         ¬ (Ledger.striker d = batsman ∧ Ledger.bowler d = bowler).
Proof.
  unfold Ledger.head_to_head. split.
  - intros Hnil d Hd Hm.
    assert (Hin : d ∈ filter (λ d, Ledger.striker d = batsman
                                   ∧ Ledger.bowler d = bowler) l)
      by (apply list_elem_of_filter; auto).
    rewrite Hnil in Hin. by apply elem_of_nil in Hin.
  - intros Hall. induction l as [|a l IH]; [reflexivity|].
    rewrite filter_cons_False by (apply Hall; left).
    apply IH. intros d Hd. apply Hall. by right.
Qed.

(** C2, as the code computes it. On a ledger that has the striker, bowler,
    runs_off_bat and wicket_type columns, when the exact, case-sensitive
    filter on (striker, bowler) selects some rows, the stats hold the row
    count, the int64 sum of runs_off_bat (the exact sum whenever that fits
    in int64, its wrap-around modulo 2^64 otherwise), the count of rows with
    a wicket_type, the count of rows with no run, the count of rows with 4
    or 6 runs, and the strike rate (runs_scored / balls_faced) * 100 in
    binary64 arithmetic. When the selected rows have runs 1, 4, 0, 6, 0 this
    is 5 balls, 11 runs, 2 dot balls, 2 boundaries and strike rate
    220.00000000000003, the binary64 value next above 220.0. *)
Theorem head_to_head_stats (df : Frame Ledger.Delivery)
    (batsman bowler : string) :
  let h2h :=
    filter (λ d, Ledger.striker d = batsman ∧ Ledger.bowler d = bowler)
      (rows df) in
  let total := foldr Z.add 0 (Ledger.runs_off_bat <$> h2h) in
  "striker" ∈ columns df → "bowler" ∈ columns df →
  "runs_off_bat" ∈ columns df → "wicket_type" ∈ columns df →
  h2h ≠ [] →
  ∃ stats,
    analyze_matchup df batsman bowler = inr (Some stats, H2H_FOUND)
    ∧ Balls_Faced stats = Z.of_nat (length h2h)
    ∧ Runs_Scored stats = Ledger.wrap64 total
    ∧ (- 2 ^ 63 ≤ total < 2 ^ 63 → Runs_Scored stats = total)
    ∧ Dismissals stats =
        Z.of_nat (length (filter (λ d, is_Some (Ledger.wicket_type d)) h2h))
    ∧ Dots stats =
        Z.of_nat (length (filter (λ d, Ledger.runs_off_bat d = 0) h2h))
    ∧ Boundaries stats =
        Z.of_nat (length (filter (λ d, Ledger.runs_off_bat d = 4
                                       ∨ Ledger.runs_off_bat d = 6) h2h))
    ∧ Strike_Rate stats =
        (truediv (Runs_Scored stats) (Balls_Faced stats) * 100)%float
    ∧ (Ledger.runs_off_bat <$> h2h = [1; 4; 0; 6; 0] →
       Balls_Faced stats = 5 ∧ Runs_Scored stats = 11
       ∧ Dots stats = 2 ∧ Boundaries stats = 2
       ∧ Strike_Rate stats = 220.00000000000003%float
       ∧ next_up 220 = 220.00000000000003%float).
Proof.
  intros h2h total Hs Hb Hr Hw Hne.
  exists (stats_of h2h). split; [by apply analyze_matchup_found|].
  assert (Ht : Ledger.sum_runs h2h = Ledger.wrap64 total).
  { unfold total. rewrite <- Int64Facts.exact_runs_fmap.
    apply Int64Facts.sum_runs_wrap. }
  cbn [stats_of Balls_Faced Runs_Scored Dismissals Dots Boundaries
       Strike_Rate].
  clearbody h2h. clear Hne.
  split; [reflexivity|]. split; [exact Ht|].
  split; [intros Hfit; rewrite Ht; by apply Int64Facts.wrap64_id|].
  split; [reflexivity|]. split; [reflexivity|].
  split; [|split; [reflexivity|]].
  - unfold Ledger.count. do 2 f_equal. apply list_filter_iff. intros d.
    rewrite !elem_of_cons, elem_of_nil. tauto.
  - intros H. rewrite Ht. unfold total. rewrite H.
    destruct h2h as [|d1 [|d2 [|d3 [|d4 [|d5 [|d6 ?]]]]]]; try discriminate H.
    injection H as H1 H2 H3 H4 H5.
    unfold Ledger.count. cbn [length].
    rewrite !filter_cons, filter_nil, H1, H2, H3, H4, H5.
    repeat split; reflexivity.
Qed.

(** The theorem on [five_balls]. *)
Lemma head_to_head_stats_witness :
  ∃ stats,
    analyze_matchup (ledger five_balls) "A" "B" = inr (Some stats, H2H_FOUND)
    ∧ Balls_Faced stats = 5 ∧ Runs_Scored stats = 11
    ∧ Dots stats = 2 ∧ Boundaries stats = 2
    ∧ Strike_Rate stats = 220.00000000000003%float.
Proof.
  assert (Hcol : ∀ label, label ∈ LEDGER_COLUMNS →
                          label ∈ columns (ledger five_balls))
    by (intros label H; exact H).
  assert (Hne : filter (λ d, Ledger.striker d = "A" ∧ Ledger.bowler d = "B")
                  (rows (ledger five_balls)) ≠ [])
    by (vm_compute; discriminate).
  destruct (head_to_head_stats (ledger five_balls) "A" "B")
    as (stats & Hst & _ & _ & _ & _ & _ & _ & _ & Hex);
    [apply Hcol; repeat constructor..|exact Hne|].
  exists stats. split; [exact Hst|].
  destruct (Hex eq_refl) as (? & ? & ? & ? & ? & _). auto.
Defined.

(** C2 as stated fails in three places. On the five deliveries with runs
    1, 4, 0, 6, 0 the strike rate returned is not the float 220.0. On two
    deliveries of 2^62 runs the int64 sum wraps: runs scored is -2^63, not
    the sum 2^63. On a ledger without the wicket_type column the function
    raises KeyError although the filter selects a row. *)
Lemma strike_rate_example_is_not_220 :
  (∃ stats,
     analyze_matchup (ledger five_balls) "A" "B"
     = inr (Some stats, H2H_FOUND)
     ∧ Ledger.runs_off_bat
         <$> filter (λ d, Ledger.striker d = "A" ∧ Ledger.bowler d = "B")
               five_balls
       = [1; 4; 0; 6; 0]
     ∧ (Strike_Rate stats =? 220)%float = false
     ∧ Strike_Rate stats ≠ 220%float)
  ∧ (∃ stats,
       analyze_matchup (ledger two_huge) "A" "B"
       = inr (Some stats, H2H_FOUND)
       ∧ Runs_Scored stats = - 2 ^ 63
       ∧ foldr Z.add 0 (Ledger.runs_off_bat <$> two_huge) = 2 ^ 63)
  ∧ (filter (λ d, Ledger.striker d = "A" ∧ Ledger.bowler d = "B")
       (rows no_wicket_column) ≠ []
     ∧ analyze_matchup no_wicket_column "A" "B"
       = inl (KeyError "wicket_type")).
Proof.
  split; [|split].
  - eexists. split; [vm_compute; reflexivity|].
    split; [vm_compute; reflexivity|]. split; [vm_compute; reflexivity|].
    cbn [Strike_Rate]. intros H.
    apply (f_equal (λ f, (f <=? 220)%float)) in H. vm_compute in H.
    discriminate H.
  - eexists. split; [vm_compute; reflexivity|].
    split; vm_compute; reflexivity.
  - split; [vm_compute; discriminate|vm_compute; reflexivity].
Qed.

(** C3, as the code behaves. The function returns the not-found outcome (no
    stats, with its status message, no exception) exactly when the ledger
    has the striker and bowler columns and no row of it has both the given
    striker and the given bowler; a ledger with those columns and no rows is
    such a case. On a ledger without the striker or the bowler column it
    raises KeyError. Stats that it returns always count the matching rows,
    of which there is at least one, so balls_faced is positive. *)
Theorem not_found_iff_no_rows (df : Frame Ledger.Delivery)
    (batsman bowler : string) :
  let matching (d : Ledger.Delivery) :=
    Ledger.striker d = batsman ∧ Ledger.bowler d = bowler in
  (analyze_matchup df batsman bowler = inr (None, NO_H2H)
   ↔ "striker" ∈ columns df ∧ "bowler" ∈ columns df
     ∧ ∀ d, d ∈ rows df → ¬ matching d)
  ∧ (∀ status, analyze_matchup df batsman bowler = inr (None, status) →
       status = NO_H2H)
  ∧ ("striker" ∉ columns df →
     analyze_matchup df batsman bowler = inl (KeyError "striker"))
  ∧ ("striker" ∈ columns df → "bowler" ∉ columns df →
     analyze_matchup df batsman bowler = inl (KeyError "bowler"))
  ∧ (∀ stats status,
       analyze_matchup df batsman bowler = inr (Some stats, status) →
       status = H2H_FOUND
       ∧ (∃ d, d ∈ rows df ∧ matching d)
       ∧ Balls_Faced stats = Z.of_nat (length (filter matching (rows df)))
       ∧ 0 < Balls_Faced stats).
Proof.
  intros matching. split; [|split; [|split; [|split]]].
  - split.
    + intros H. apply analyze_matchup_returns in H as (Hs & Hb & [H|H]).
      * destruct H as (Hnil & _). split; [exact Hs|]. split; [exact Hb|].
        by apply head_to_head_nil.
      * destruct H as (_ & _ & _ & H & _). discriminate H.
    + intros (Hs & Hb & Hall). apply analyze_matchup_not_found; try done.
      by apply head_to_head_nil.
  - intros status H. apply analyze_matchup_returns in H as (_ & _ & [H|H]).
    + by destruct H as (_ & _ & ->).
    + destruct H as (_ & _ & _ & H & _). discriminate H.
  - intros Hs. unfold analyze_matchup.
    by rewrite (proj2 (has_column_false _ _) Hs).
  - intros Hs Hb. unfold analyze_matchup.
    by rewrite (proj2 (has_column_true _ _) Hs),
      (proj2 (has_column_false _ _) Hb).
  - intros stats status H.
    apply analyze_matchup_returns in H as (_ & _ & [H|H]).
    + destruct H as (_ & H & _). discriminate H.
    + destruct H as (Hne & _ & _ & [= ->] & ->).
      split; [reflexivity|]. cbn [stats_of Balls_Faced].
      change (filter matching (rows df))
        with (Ledger.head_to_head (rows df) batsman bowler).
      split; [|split; [reflexivity|]].
      * destruct (Ledger.head_to_head (rows df) batsman bowler) as [|d l] eqn:E;
          [done|].
        assert (Hin : d ∈ Ledger.head_to_head (rows df) batsman bowler)
          by (rewrite E; left).
        apply list_elem_of_filter in Hin as [Hm Hin]. eauto.
      * destruct (Ledger.head_to_head (rows df) batsman bowler); [done|].
        cbn [length]. lia.
Qed.

(** C3 as stated fails on the empty DataFrame, the ledger the ingestion
    returns when no file is accepted: no row matches the pair, yet the
    function raises KeyError on the striker column instead of returning the
    not-found outcome. *)
Lemma empty_frame_raises :
  filter (λ d, Ledger.striker d = "A" ∧ Ledger.bowler d = "B")
    (rows (@empty_frame Ledger.Delivery)) = []
  ∧ get_cleaned_data (Row:=Ledger.Delivery) [] = empty_frame
  ∧ analyze_matchup empty_frame "A" "B" = inl (KeyError "striker")
  ∧ analyze_matchup empty_frame "A" "B" ≠ inr (None, NO_H2H).
Proof. repeat split; try reflexivity. discriminate. Qed.

End MatchupFacts.
(** ** robust_cricaii.py: ingestion *)

Module IngestFacts.
Import Ingest.

Section Normalizer.
Context {Row : Type}.
Implicit Types (m : Member Row) (df : Frame Row).

Lemma is_match_file_spec (name : string) :
  is_match_file name = true ↔
  endswith name ".csv" = true ∧ endswith name "_info.csv" = false
  ∧ contains "README" name = false.
Proof.
  unfold is_match_file.
  rewrite !andb_true_iff, !negb_true_iff. tauto.
Qed.

Lemma accepted_Some m df :
  accepted m = Some df ↔
  read_csv m = Some df ∧ is_match_file (filename m) = true
  ∧ "striker" ∈ columns df ∧ "bowler" ∈ columns df.
Proof.
  unfold accepted. destruct (read_csv m) as [df'|]; cbn.
  - case_guard; cbn; split.
    + intros [= ->]. tauto.
    + intros ([= ->] & _). reflexivity.
    + discriminate.
    + intros ([= ->] & ?). tauto.
  - split; [discriminate|]. intros [? _]. discriminate.
Qed.

(** One iteration appends the member's frame when it is accepted and leaves
    the list alone otherwise. *)
Lemma visit_accepted (acc : list (Frame Row)) m :
  visit acc m = acc ++ option_list (accepted m).
Proof.
  unfold visit, accepted.
  destruct (is_match_file (filename m)) eqn:Hn;
    destruct (read_csv m) as [df|]; cbn;
    repeat case_bool_decide; cbn; try case_guard; cbn;
    rewrite ?app_nil_r; try reflexivity;
    exfalso; intuition discriminate.
Qed.

Lemma foldl_visit (acc : list (Frame Row)) (l : list (Member Row)) :
  foldl visit acc l = acc ++ omap accepted l.
Proof.
  revert acc. induction l as [|m l IH]; intros acc; cbn.
  - by rewrite app_nil_r.
  - rewrite IH, visit_accepted. rewrite <- app_assoc. f_equal.
    by destruct (accepted m).
Qed.

Lemma rows_pd_concat (ignore_index : bool) (frames : list (Frame Row)) :
  rows (default empty_frame (pd_concat ignore_index frames))
  = concat (rows <$> frames).
Proof. by destruct frames. Qed.

Lemma rows_get_cleaned_data (namelist : list (Member Row)) :
  rows (get_cleaned_data namelist)
  = concat (rows <$> omap accepted (take 150 namelist)).
Proof.
  unfold get_cleaned_data. rewrite foldl_visit, app_nil_l.
  rewrite <- (rows_pd_concat true). by destruct (pd_concat _ _).
Qed.

(** C5. For every sequence of archive members the ledger holds exactly the
    rows of the accepted ones, in order, where the members visited are the
    first 150 names and a member is accepted exactly when its name ends in
    .csv, does not end in _info.csv and does not contain README, it parses,
    and the parsed columns include striker and bowler. A member that fails
    any of these contributes nothing and ingestion goes on. With one accepted
    file and one parsed file that lacks the bowler column, in either order,
    the ledger holds the rows of the accepted file only. *)
Theorem ledger_is_rows_of_accepted_files (namelist : list (Member Row)) :
  rows (get_cleaned_data namelist)
    = concat (rows <$> omap accepted (take 150 namelist))
  ∧ (∀ m df,
       accepted m = Some df ↔
       read_csv m = Some df
       ∧ endswith (filename m) ".csv" = true
       ∧ endswith (filename m) "_info.csv" = false
       ∧ contains "README" (filename m) = false
       ∧ "striker" ∈ columns df ∧ "bowler" ∈ columns df)
  ∧ (∀ (good bad : Member Row) (df_good df_bad : Frame Row),
       accepted good = Some df_good →
       read_csv bad = Some df_bad → "bowler" ∉ columns df_bad →
       rows (get_cleaned_data [good; bad]) = rows df_good
       ∧ rows (get_cleaned_data [bad; good]) = rows df_good).
Proof.
  split; [apply rows_get_cleaned_data|]. split.
  - intros m df. rewrite accepted_Some, is_match_file_spec. tauto.
  - intros good bad df_good df_bad Hgood Hbad Hcol.
    assert (Hnone : accepted bad = None).
    { destruct (accepted bad) as [df|] eqn:E; [|reflexivity].
      apply accepted_Some in E as (E & _ & _ & Hb).
      rewrite Hbad in E. injection E as ->. contradiction. }
    rewrite !rows_get_cleaned_data. cbn. rewrite Hgood, Hnone. cbn.
    by rewrite app_nil_r.
Qed.

End Normalizer.

(** The theorem on two concrete files. *)
Lemma ledger_is_rows_of_accepted_files_witness :
  rows (get_cleaned_data [match_335982; match_without_bowler])
  = rows (Frame_335982).
Proof.
  pose proof (ledger_is_rows_of_accepted_files
                [match_335982; match_without_bowler]) as (_ & _ & T).
  refine (proj1 (T match_335982 match_without_bowler _ _ _ _ _));
    [reflexivity | reflexivity | ].
  cbn. intros H.
  repeat (apply elem_of_cons in H as [H|H]; [discriminate H|]).
  by apply elem_of_nil in H.
Defined.


(** *** Phase binning *)

Lemma filter_none {A : Type} (P : A → Prop) `{!∀ x, Decision (P x)}
    (l : list A) :
  (∀ x, x ∈ l → ¬ P x) → filter P l = [].
Proof.
  induction l as [|a l IH]; intros Hl; [reflexivity|].
  rewrite filter_cons, decide_False by (apply Hl; left).
  apply IH. intros x Hx. apply Hl. by right.
Qed.

Lemma cut_cascade (x : float) : cut x = cascade x.
Proof.
  unfold cut, cascade, bins, searchsorted_left.
  destruct (0 <? x)%float, (6 <? x)%float, (15 <? x)%float, (20 <? x)%float;
    reflexivity.
Qed.

Lemma below_edges (x : float) :
  below x (0 <? x)%float (6 <? x)%float (15 <? x)%float (20 <? x)%float.
Proof.
  pose proof (FloatOrder.ltb_6_0 x) as H6.
  pose proof (FloatOrder.ltb_15_6 x) as H15.
  pose proof (FloatOrder.ltb_20_15 x) as H20.
  destruct (0 <? x)%float, (6 <? x)%float, (15 <? x)%float, (20 <? x)%float;
    try constructor;
    try (specialize (H6 eq_refl); discriminate H6);
    try (specialize (H15 eq_refl); discriminate H15);
    try (specialize (H20 eq_refl); discriminate H20).
Qed.

Lemma leb_edge (x c : float) :
  (0 <? x)%float = true → Prim2SF c ≠ S754_nan →
  (x <=? c)%float = negb (c <? x)%float.
Proof.
  intros H0 Hc. apply FloatOrder.leb_negb_ltb; [|exact Hc].
  by apply FloatOrder.ltb_0_not_nan.
Qed.

Ltac edge_cases x :=
  let H0 := fresh "H0" in
  pose proof (below_edges x) as Hb;
  destruct (0 <? x)%float eqn:H0;
  [ rewrite ?(leb_edge x 6 H0), ?(leb_edge x 15 H0), ?(leb_edge x 20 H0)
      by (intros E; vm_compute in E; discriminate E)
  | ];
  inversion Hb; subst; clear Hb.

Lemma cut_interval_label (x : float) : cut x = interval_label x.
Proof.
  rewrite cut_cascade. unfold cascade, interval_label.
  edge_cases x; reflexivity.
Qed.

Lemma cut_in_bins (x : float) :
  (in_bins x = true ∧ ∃ phase, phase ∈ labels ∧ cut x = Some phase)
  ∨ (in_bins x = false ∧ cut x = None).
Proof.
  rewrite cut_cascade. unfold cascade, in_bins, labels.
  edge_cases x; cbn;
    first [ right; split; reflexivity
          | left; split; [reflexivity|]; eexists; split; [|reflexivity];
            repeat constructor ].
Qed.

Lemma in_1_20_in_bins (x : float) : in_1_20 x = true → in_bins x = true.
Proof.
  unfold in_1_20, in_bins. intros [H1 H20]%andb_prop.
  by rewrite (FloatOrder.leb_1_ltb_0 x H1), H20.
Qed.

Lemma cut_None_iff (x : float) : cut x = None ↔ in_bins x = false.
Proof.
  destruct (cut_in_bins x) as [(Hin & phase & _ & Hc)|(Hin & Hc)];
    rewrite Hin, Hc; split; congruence.
Qed.

(** The exact totals of the three phases add up to the exact total of the
    rows in (0, 20]. *)
Lemma exact_phase_total (l : list Ledger.Delivery) :
  Ledger.exact_runs (filter (λ d, cut (Ledger.ball d) = Some "Powerplay") l)
  + (Ledger.exact_runs (filter (λ d, cut (Ledger.ball d) = Some "Middle") l)
     + (Ledger.exact_runs
          (filter (λ d, cut (Ledger.ball d) = Some "Death") l) + 0))
  = Ledger.exact_runs (filter (λ d, in_bins (Ledger.ball d) = true) l).
Proof.
  induction l as [|d l IH]; [reflexivity|].
  rewrite !filter_cons.
  destruct (cut_in_bins (Ledger.ball d)) as [(Hin & phase & Hp & Hc)|(Hin & Hc)];
    rewrite Hin, Hc.
  - unfold labels in Hp.
    repeat (apply elem_of_cons in Hp as [->|Hp]);
      try (by apply elem_of_nil in Hp);
      repeat case_decide; try congruence;
      unfold Ledger.exact_runs in *; cbn [foldr]; lia.
  - repeat case_decide; congruence.
Qed.

Lemma total_runs_phase_lines (l : list Ledger.Delivery) :
  total_runs (phase_lines l)
  = Ledger.sum_runs (filter (λ d, cut (Ledger.ball d) = Some "Powerplay") l)
    + (Ledger.sum_runs (filter (λ d, cut (Ledger.ball d) = Some "Middle") l)
       + (Ledger.sum_runs
            (filter (λ d, cut (Ledger.ball d) = Some "Death") l) + 0)).
Proof. reflexivity. Qed.

(** In int64 arithmetic the phase lines add up to the int64 sum of the rows
    in (0, 20]. *)
Lemma phase_lines_total (l : list Ledger.Delivery) :
  Ledger.wrap64 (total_runs (phase_lines l))
  = Ledger.sum_runs (filter (λ d, in_bins (Ledger.ball d) = true) l).
Proof.
  rewrite total_runs_phase_lines, !Int64Facts.sum_runs_wrap.
  rewrite <- exact_phase_total, !Z.add_0_r.
  set (e1 := Ledger.exact_runs _). set (e2 := Ledger.exact_runs _).
  set (e3 := Ledger.exact_runs _).
  rewrite <- (Int64Facts.wrap64_add e1 (e2 + e3)).
  rewrite <- (Int64Facts.wrap64_add e2 e3).
  by rewrite Int64Facts.wrap64_add_r.
Qed.

(** Without negative cells and without overflow the phase lines add up to
    the exact total of the rows in (0, 20]. *)
Lemma phase_lines_total_exact (l : list Ledger.Delivery) :
  (∀ d, d ∈ l → 0 ≤ Ledger.runs_off_bat d) →
  Ledger.exact_runs (filter (λ d, in_bins (Ledger.ball d) = true) l) < 2 ^ 63 →
  total_runs (phase_lines l)
  = Ledger.exact_runs (filter (λ d, in_bins (Ledger.ball d) = true) l).
Proof.
  intros Hpos Hfit. rewrite total_runs_phase_lines, <- exact_phase_total.
  rewrite <- exact_phase_total in Hfit.
  pose proof (Int64Facts.exact_runs_filter_le
                (λ d, cut (Ledger.ball d) = Some "Powerplay") l Hpos) as H1.
  pose proof (Int64Facts.exact_runs_filter_le
                (λ d, cut (Ledger.ball d) = Some "Middle") l Hpos) as H2.
  pose proof (Int64Facts.exact_runs_filter_le
                (λ d, cut (Ledger.ball d) = Some "Death") l Hpos) as H3.
  rewrite !Int64Facts.sum_runs_exact by lia. reflexivity.
Qed.

(** C4, as the code bins and sums. For every table and batter, the bin edges
    0, 6, 15, 20 give the right-closed intervals Powerplay (0,6], Middle
    (6,15], Death (15,20]: a row of the batter whose position lies in (0,20],
    in particular every row in [1,20], falls in exactly one of the three
    phases, and a row outside (0,20] falls in none. The table always has the
    three phase lines, each with the int64 sum of the runs of its rows, a
    phase without rows with total 0. The three lines add up to the sum of
    the runs of the rows in (0,20] modulo 2^64, and to exactly that sum when
    no row has negative runs and the sum is below 2^63. *)
Theorem phase_profile_bins (data : list Ledger.Delivery) (batsman : string) :
  let b_stats := filter (λ d, Ledger.striker d = batsman) data in
  let table := phase_performance data batsman in
  let in_range := filter (λ d, in_bins (Ledger.ball d) = true) b_stats in
  (∀ x, cut x = interval_label x)
  ∧ (∀ x, in_1_20 x = true → in_bins x = true)
  ∧ (∀ x, in_bins x = true → ∃ phase, phase ∈ labels ∧ cut x = Some phase)
  ∧ (∀ x, cut x = None ↔ in_bins x = false)
  ∧ table.*1 = labels
  ∧ (∀ i phase, labels !! i = Some phase →
       table !! i =
       Some (phase,
             Ledger.wrap64
               (foldr Z.add 0
                  (Ledger.runs_off_bat
                   <$> filter (λ d, cut (Ledger.ball d) = Some phase)
                         b_stats))))
  ∧ (∀ phase, phase ∈ labels →
       (∀ d, d ∈ b_stats → cut (Ledger.ball d) ≠ Some phase) →
       (phase, 0) ∈ table)
  ∧ Ledger.wrap64 (total_runs table)
    = Ledger.wrap64 (foldr Z.add 0 (Ledger.runs_off_bat <$> in_range))
  ∧ ((∀ d, d ∈ b_stats → 0 ≤ Ledger.runs_off_bat d) →
     foldr Z.add 0 (Ledger.runs_off_bat <$> in_range) < 2 ^ 63 →
     total_runs table = foldr Z.add 0 (Ledger.runs_off_bat <$> in_range)).
Proof.
  intros b_stats table in_range.
  split; [exact cut_interval_label|]. split; [exact in_1_20_in_bins|].
  split.
  { intros x Hx.
    destruct (cut_in_bins x) as [(_ & H)|(Hin & _)]; [exact H|congruence]. }
  split; [exact cut_None_iff|].
  change table with (phase_lines b_stats).
  split; [reflexivity|]. split; [|split; [|split]].
  - intros i phase Hi. unfold phase_lines.
    rewrite list_lookup_fmap, Hi. cbn.
    by rewrite Int64Facts.sum_runs_wrap, Int64Facts.exact_runs_fmap.
  - intros phase Hp Hnone. unfold phase_lines.
    apply list_elem_of_fmap. exists phase. split; [|exact Hp].
    f_equal.
    replace (filter (λ d, cut (Ledger.ball d) = Some phase) b_stats)
      with (@nil Ledger.Delivery); [reflexivity|].
    symmetry. apply filter_none. exact Hnone.
  - rewrite phase_lines_total, <- Int64Facts.exact_runs_fmap.
    apply Int64Facts.sum_runs_wrap.
  - intros Hpos Hfit. rewrite <- Int64Facts.exact_runs_fmap in *.
    by apply phase_lines_total_exact.
Qed.

(** C4 as stated fails on the first over: a row at position 0.1 or 0.4 is
    outside [1,20], yet it is binned as Powerplay, and the phase lines add
    up to 7 runs where the rows in [1,20] have 2. It also fails past the
    int64 range: for two rows of 2^62 runs in the second over the Powerplay
    line is -2^63, so the lines do not add up to the sum 2^63 of the runs. *)
Lemma first_over_is_binned :
  let table := phase_performance first_over "A" in
  let in_range :=
    filter (λ d, in_1_20 (Ledger.ball d) = true)
      (filter (λ d, Ledger.striker d = "A") first_over) in
  let huge := phase_performance second_over_huge "A" in
  (in_1_20 0.1 = false ∧ cut 0.1 = Some "Powerplay"
   ∧ table = [("Powerplay", 5); ("Middle", 2); ("Death", 0)]
   ∧ foldr Z.add 0 (Ledger.runs_off_bat <$> in_range) = 2
   ∧ total_runs table ≠ foldr Z.add 0 (Ledger.runs_off_bat <$> in_range))
  ∧ (Forall (λ d, in_1_20 (Ledger.ball d) = true
                  ∧ Ledger.striker d = "A") second_over_huge
     ∧ huge = [("Powerplay", - 2 ^ 63); ("Middle", 0); ("Death", 0)]
     ∧ foldr Z.add 0 (Ledger.runs_off_bat <$> second_over_huge) = 2 ^ 63
     ∧ total_runs huge
       ≠ foldr Z.add 0 (Ledger.runs_off_bat <$> second_over_huge)).
Proof.
  cbv zeta. split.
  - repeat split; try (vm_compute; reflexivity).
    vm_compute. discriminate.
  - split; [repeat constructor|].
    split; [vm_compute; reflexivity|].
    split; [vm_compute; reflexivity|]. vm_compute. discriminate.
Qed.

End IngestFacts.

(** * Further properties *)

(** ** app.py: catalogue lookup and dashboard read-outs *)

Module ReadoutFacts.
Import PyNum App Dashboard.

(** X1. A venue name outside the catalogue is a KeyError, whatever the weather,
    and every catalogue name gives a physics record. *)
Theorem unknown_venue_raises (name : string)
    (temp humidity clouds hour1 hour2 : Z) :
  (calculate_pitch_physics name temp humidity clouds hour1 hour2 = None
   ↔ name ∉ VENUE_NAMES)
  ∧ (is_Some (calculate_pitch_physics name temp humidity clouds hour1 hour2)
     ↔ name ∈ VENUE_NAMES).
Proof.
  assert (Hdom : VENUES_DATABASE !! name = None ↔ name ∉ VENUE_NAMES).
  { unfold VENUES_DATABASE. rewrite <- not_elem_of_list_to_map. reflexivity. }
  unfold calculate_pitch_physics.
  destruct (VENUES_DATABASE !! name) as [v|] eqn:E; cbn; split.
  - rewrite <- Hdom. split; [discriminate|]. intros H. discriminate H.
  - split; [intros _|eauto].
    destruct (decide (name ∈ VENUE_NAMES)) as [|Hn]; [assumption|].
    apply Hdom in Hn. discriminate Hn.
  - rewrite <- Hdom. tauto.
  - split; [intros [? H]; discriminate H|].
    intros Hin. exfalso. by apply (proj1 Hdom).
Qed.

Lemma swing_in_range_all (alt h c : Z) :
  alt ∈ [10; 5; 20; 35] → 0 ≤ h ≤ 100 → 0 ≤ c ≤ 100 →
  swing_in_range alt h c = true.
Proof.
  intros Halt Hh Hc.
  assert (Hb : forallb (λ a, forallb (λ h, forallb (λ c,
      swing_in_range a h c) (seqZ 0 101)) (seqZ 0 101)) [10; 5; 20; 35]
      = true) by (vm_compute; reflexivity).
  rewrite forallb_forall in Hb.
  specialize (Hb alt (proj1 (list_elem_of_In _ _) Halt)).
  rewrite forallb_forall in Hb.
  assert (Hh' : h ∈ seqZ 0 101) by (apply elem_of_seqZ; lia).
  specialize (Hb h (proj1 (list_elem_of_In _ _) Hh')).
  rewrite forallb_forall in Hb.
  assert (Hc' : c ∈ seqZ 0 101) by (apply elem_of_seqZ; lia).
  exact (Hb c (proj1 (list_elem_of_In _ _) Hc')).
Qed.

(** X2. For every catalogue venue and every humidity and cloud cover in [0,100]
    the swing value is the int 0 or a float strictly between 0 and 1, so the
    progress bar is given a valid fraction and the percentage shown is an
    integer from 0 to 99; the spin percentage shown is 40 or 80. *)
Theorem readouts_in_range (name : string) (v : Venue)
    (temp humidity clouds hour1 hour2 : Z) :
  VENUES_DATABASE !! name = Some v →
  0 ≤ humidity ≤ 100 → 0 ≤ clouds ≤ 100 →
  let p := pitch_physics v temp humidity clouds hour1 hour2 in
  (swing p = PyInt 0
   ∨ ∃ f, swing p = PyFloat f
          ∧ (0 <? f)%float = true ∧ (f <? 1)%float = true)
  ∧ (∃ n, swing_percent p = Some n ∧ 0 ≤ n ≤ 99)
  ∧ (spin_percent p = Some 40 ∨ spin_percent p = Some 80).
Proof.
  intros Hv Hh Hc p.
  pose proof (SwingFacts.catalogue_altitudes name v Hv) as Halt.
  pose proof (swing_in_range_all _ _ _ Halt Hh Hc) as Hr.
  unfold swing_in_range in Hr. cbv zeta in Hr.
  subst p. unfold swing_percent, spin_percent. cbn [swing spin pitch_physics].
  unfold max0.
  set (x := (truediv humidity 100 * truediv clouds 100
             - truediv (altitude v) 2000)%float) in *.
  split; [|split].
  - destruct (0 <? x)%float eqn:H0; [right|left; reflexivity].
    apply andb_prop in Hr as [H1 _]. eauto.
  - destruct (0 <? x)%float eqn:H0.
    + apply andb_prop in Hr as [_ Hn].
      destruct (int_of_float (x * 100)) as [n|]; [|discriminate Hn].
      exists n. split; [reflexivity|]. lia.
    + exists 0. split; [reflexivity|lia].
  - destruct (String.eqb (soil v) "Black" && (31 <? temp)); [right|left];
      vm_compute; reflexivity.
Qed.

Lemma readouts_in_range_witness :
  ∃ n,
    swing_percent
      (pitch_physics
         {| soil := "Black"; clay := 0.70; altitude := 5; avg_temp := 33;
            drainage := "Medium" |} 33 75 20 12 12) = Some n
    ∧ 0 ≤ n ≤ 99.
Proof.
  assert (H : VENUES_DATABASE !! "Chepauk, Chennai"
              = Some {| soil := "Black"; clay := 0.70; altitude := 5;
                        avg_temp := 33; drainage := "Medium" |})
    by (vm_compute; reflexivity).
  assert (Hh : 0 ≤ 75 ≤ 100) by lia.
  assert (Hc : 0 ≤ 20 ≤ 100) by lia.
  exact (proj1 (proj2 (readouts_in_range _ _ 33 75 20 12 12 H Hh Hc))).
Defined.

End ReadoutFacts.

(** ** app.py: from weather to alerts *)

Module PipelineFacts.
Import PyNum App Dashboard.

Lemma alerts_closed_form role pressure spin_skill accel_rating physics :
  (player_dna_eval role pressure spin_skill accel_rating physics).2
  = (if choke_fires pressure physics then [CHOKE_ALERT] else [])
    ++ (if trap_fires spin_skill physics then [SPIN_TRAP] else [])
    ++ (if accel_fires accel_rating then [ACCELERATOR] else []).
Proof.
  unfold player_dna_eval. cbn [snd].
  rewrite ScorerFacts.acceleration_step, ScorerFacts.spin_choke_step,
    ScorerFacts.choke_logic_step.
  cbn [snd]. by rewrite app_nil_l, <- app_assoc.
Qed.

Lemma score_closed_form role pressure spin_skill accel_rating physics :
  (player_dna_eval role pressure spin_skill accel_rating physics).1
  = 80 - (if choke_fires pressure physics then 25 else 0)
    - (if trap_fires spin_skill physics then 20 else 0)
    + (if accel_fires accel_rating then 15 else 0).
Proof.
  unfold player_dna_eval. cbn [fst].
  rewrite ScorerFacts.acceleration_step, ScorerFacts.spin_choke_step,
    ScorerFacts.choke_logic_step.
  cbn [fst]. rewrite ScorerFacts.clamp_0_100_spec.
  destruct (choke_fires _ _), (trap_fires _ _), (accel_fires _); reflexivity.
Qed.

(** The thresholds 0.7 separate the two values of each coefficient. *)
Lemma dew_above (b : bool) :
  (0.7 <? (if b then 0.85 else 0.1))%float = b.
Proof. by destruct b. Qed.

Lemma spin_above (b : bool) :
  (0.7 <? 0.4 + (if b then 0.4 else 0))%float = b.
Proof. by destruct b. Qed.

(** Which alerts a returned list holds. *)
Lemma alert_membership role pressure spin_skill accel_rating physics :
  let alerts :=
    (player_dna_eval role pressure spin_skill accel_rating physics).2 in
  (CHOKE_ALERT ∈ alerts ↔ choke_fires pressure physics = true)
  ∧ (SPIN_TRAP ∈ alerts ↔ trap_fires spin_skill physics = true)
  ∧ (ACCELERATOR ∈ alerts ↔ accel_fires accel_rating = true).
Proof.
  cbv zeta. rewrite alerts_closed_form.
  unfold CHOKE_ALERT, SPIN_TRAP, ACCELERATOR.
  destruct (choke_fires _ _), (trap_fires _ _), (accel_fires _); cbn;
    repeat split; intros H; try reflexivity; try discriminate H;
    try (repeat (apply elem_of_cons in H as [H|H]; [discriminate H|]);
         by apply elem_of_nil in H);
    repeat first [ apply list_elem_of_here
                 | apply list_elem_of_further ].
Qed.

(** X3. The score is never clamped: it is 80 minus 25 and 20 and plus 15 as the
    rules fire, between 35 and 95, and it is 80 exactly when no alert is
    raised. Two evaluations with the same score raised the same alerts. *)
Theorem score_identifies_alerts (role role' : string)
    (pressure spin_skill accel_rating : Z) (physics : Physics)
    (pressure' spin_skill' accel_rating' : Z) (physics' : Physics) :
  let r := player_dna_eval role pressure spin_skill accel_rating physics in
  let r' :=
    player_dna_eval role' pressure' spin_skill' accel_rating' physics' in
  r.1 = 80 - (if choke_fires pressure physics then 25 else 0)
        - (if trap_fires spin_skill physics then 20 else 0)
        + (if accel_fires accel_rating then 15 else 0)
  ∧ r.1 ∈ [80; 95; 60; 75; 55; 70; 35; 50]
  ∧ (r.1 = 80 ↔ r.2 = [])
  ∧ (r.1 = r'.1 → r.2 = r'.2).
Proof.
  cbv zeta. rewrite !score_closed_form, !alerts_closed_form.
  split; [reflexivity|].
  destruct (choke_fires pressure physics), (trap_fires spin_skill physics),
    (accel_fires accel_rating);
    (split; [cbn; set_solver|]);
    (split; [cbn; split; intros H; (discriminate H || reflexivity || lia)|]);
    destruct (choke_fires pressure' physics'),
      (trap_fires spin_skill' physics'), (accel_fires accel_rating');
    cbn; intros H; (reflexivity || lia).
Qed.

(** X4. From weather to alerts. With physics computed for a venue record (both
    clock readings in the hour [hour]): the choke alert is raised exactly
    when pressure resistance is below 45, it is night (hour >= 18 or <= 4)
    and humidity exceeds 70, which is also exactly when the dew read-out is
    CRITICAL for a player below 45; the spin-trap alert exactly when the soil
    is Black, the temperature exceeds 31 and spin skill is below 50; the
    accelerator alert exactly when the rating exceeds 80. *)
Theorem weather_to_alerts (v : Venue) (temp humidity clouds hour : Z)
    (role : string) (pressure spin_skill accel_rating : Z) :
  let p := pitch_physics v temp humidity clouds hour hour in
  let alerts := (player_dna_eval role pressure spin_skill accel_rating p).2 in
  (CHOKE_ALERT ∈ alerts
   ↔ pressure < 45 ∧ (18 ≤ hour ∨ hour ≤ 4) ∧ 70 < humidity)
  ∧ (dew_risk p = "CRITICAL" ↔ (18 ≤ hour ∨ hour ≤ 4) ∧ 70 < humidity)
  ∧ (SPIN_TRAP ∈ alerts
     ↔ soil v = "Black" ∧ 31 < temp ∧ spin_skill < 50)
  ∧ (ACCELERATOR ∈ alerts ↔ 80 < accel_rating).
Proof.
  intros p alerts.
  destruct (alert_membership role pressure spin_skill accel_rating p)
    as (Hc & Ht & Ha).
  fold alerts in Hc, Ht, Ha. rewrite Hc, Ht, Ha. clear Hc Ht Ha alerts.
  subst p. unfold choke_fires, trap_fires, accel_fires, dew_risk.
  cbn [dew spin pitch_physics]. rewrite dew_above, spin_above.
  rewrite !andb_true_iff, orb_true_iff, !Z.ltb_lt, !Z.leb_le, String.eqb_eq.
  split; [tauto|]. split; [|split; tauto].
  rewrite <- Z.ltb_lt, <- !Z.leb_le, <- orb_true_iff, <- andb_true_iff.
  destruct (_ && _); split; intros H; (reflexivity || discriminate H).
Qed.

(** X5. Through the catalogue, the spin-trap alert can only come from
    "Chepauk, Chennai", the one Black-soil venue: it is raised exactly when
    that venue is chosen, the temperature exceeds 31 and spin skill is below
    50. *)
Theorem spin_trap_only_at_chepauk (name : string)
    (temp humidity clouds hour1 hour2 : Z) (p : Physics)
    (role : string) (pressure spin_skill accel_rating : Z) :
  calculate_pitch_physics name temp humidity clouds hour1 hour2 = Some p →
  (SPIN_TRAP ∈ (player_dna_eval role pressure spin_skill accel_rating p).2
   ↔ name = "Chepauk, Chennai" ∧ 31 < temp ∧ spin_skill < 50).
Proof.
  unfold calculate_pitch_physics.
  destruct (VENUES_DATABASE !! name) as [v|] eqn:Hv; [|discriminate].
  cbn. intros [= <-].
  destruct (alert_membership role pressure spin_skill accel_rating
              (pitch_physics v temp humidity clouds hour1 hour2))
    as (_ & Ht & _).
  rewrite Ht. clear Ht. unfold trap_fires. cbn [spin pitch_physics].
  rewrite spin_above, !andb_true_iff, !Z.ltb_lt, String.eqb_eq.
  unfold VENUES_DATABASE in Hv. apply elem_of_list_to_map_2 in Hv.
  repeat (apply elem_of_cons in Hv as [Hv|Hv]);
    try (by apply elem_of_nil in Hv);
    injection Hv as -> ->; cbn [soil];
    split; intros ([H ?] & ?) || intros (H & ? & ?);
    try discriminate H; auto.
Qed.

Lemma spin_trap_only_at_chepauk_witness :
  SPIN_TRAP ∈
    (player_dna_eval "Anchor" 80 40 60
       (pitch_physics
          {| soil := "Black"; clay := 0.70; altitude := 5; avg_temp := 33;
             drainage := "Medium" |} 33 75 20 12 12)).2.
Proof.
  apply (spin_trap_only_at_chepauk "Chepauk, Chennai" 33 75 20 12 12 _
           "Anchor" 80 40 60 eq_refl).
  repeat split; lia.
Defined.

End PipelineFacts.

(** ** robust_cricai.py: what the head-to-head statistics always satisfy *)

Module StatsFacts.
Import PyNum Ingest Matchup.

Lemma filter_disjoint_length {A : Type} (P Q : A → Prop)
    `{!∀ x, Decision (P x)} `{!∀ x, Decision (Q x)} (l : list A) :
  (∀ x, P x → Q x → False) →
  (length (filter P l) + length (filter Q l) ≤ length l)%nat.
Proof.
  intros Hd. induction l as [|a l IH]; [reflexivity|].
  rewrite !filter_cons.
  destruct (decide (P a)) as [HP|HP], (decide (Q a)) as [HQ|HQ]; cbn;
    try lia.
  destruct (Hd a HP HQ).
Qed.

(** X6. Whatever stats are returned count at least one ball, and their counters
    fit together: dismissals, dot balls and boundaries are counts between 0
    and balls faced, and since no delivery is both a dot ball and a
    boundary, dot balls plus boundaries never exceed balls faced. *)
Theorem stats_counters_fit (df : Frame Ledger.Delivery)
    (batsman bowler : string) (stats : Stats) (status : string) :
  analyze_matchup df batsman bowler = inr (Some stats, status) →
  1 ≤ Balls_Faced stats
  ∧ 0 ≤ Dismissals stats ≤ Balls_Faced stats
  ∧ 0 ≤ Dots stats
  ∧ 0 ≤ Boundaries stats
  ∧ Dots stats + Boundaries stats ≤ Balls_Faced stats.
Proof.
  intros H. apply MatchupFacts.analyze_matchup_returns in H as (_ & _ & [H|H]).
  { destruct H as (_ & H & _). discriminate H. }
  destruct H as (Hne & _ & _ & [= ->] & _).
  cbn [stats_of Balls_Faced Dismissals Dots Boundaries].
  unfold Ledger.count.
  set (h2h := Ledger.head_to_head (rows df) batsman bowler) in *.
  pose proof (length_filter (λ d, is_Some (Ledger.wicket_type d)) h2h).
  assert (Hd := filter_disjoint_length
                  (λ d, Ledger.runs_off_bat d = 0)
                  (λ d, Ledger.runs_off_bat d ∈ [4; 6]) h2h).
  assert (1 ≤ length h2h)%nat by (destruct h2h; [done|cbn; lia]).
  split; [lia|]. split; [lia|]. split; [lia|]. split; [lia|].
  cut (∀ x : Ledger.Delivery,
         Ledger.runs_off_bat x = 0 → Ledger.runs_off_bat x ∈ [4; 6] → False).
  { intros Hx. specialize (Hd Hx). lia. }
  intros x Hzero H46. rewrite Hzero in H46.
  repeat (apply elem_of_cons in H46 as [H46|H46]; [discriminate H46|]).
  by apply elem_of_nil in H46.
Qed.

Lemma stats_counters_fit_witness :
  ∃ stats,
    analyze_matchup (ledger five_balls) "A" "B"
    = inr (Some stats, H2H_FOUND)
    ∧ Dots stats + Boundaries stats ≤ Balls_Faced stats.
Proof.
  eexists. split; [vm_compute; reflexivity|].
  eapply (stats_counters_fit (ledger five_balls) "A" "B").
  vm_compute. reflexivity.
Defined.

Lemma runs_bounds (l : list Ledger.Delivery) :
  (∀ d, d ∈ l → 0 ≤ Ledger.runs_off_bat d) →
  0 ≤ Ledger.exact_runs l
  ∧ 4 * Ledger.count (λ d, Ledger.runs_off_bat d ∈ [4; 6]) l
    ≤ Ledger.exact_runs l
  ∧ (Ledger.exact_runs l = 0
     ↔ Ledger.count (λ d, Ledger.runs_off_bat d = 0) l
       = Z.of_nat (length l)).
Proof.
  unfold Ledger.count, Ledger.exact_runs.
  induction l as [|a l IH]; intros Hl; [cbn; lia|].
  assert (Ha : 0 ≤ Ledger.runs_off_bat a) by (apply Hl; left).
  destruct IH as (IH1 & IH2 & IH3); [intros d Hd; apply Hl; by right|].
  pose proof (length_filter (λ d, Ledger.runs_off_bat d = 0) l) as Hlen.
  rewrite !filter_cons. cbn [foldr].
  destruct (decide (Ledger.runs_off_bat a ∈ [4; 6])) as [H46|H46],
    (decide (Ledger.runs_off_bat a = 0)) as [H0|H0]; cbn [length];
    try (repeat (apply elem_of_cons in H46 as [H46|H46]; [|]);
         try (by apply elem_of_nil in H46));
    lia.
Qed.

(** X7. When no row of the pair has negative runs and their runs add up to
    less than 2^63, so that the int64 sum does not wrap, the runs scored are
    the exact sum: at least four times the boundaries and not negative, and
    0 exactly when every ball faced was a dot ball. Whatever the rows, the
    runs scored lie in the int64 range. *)
Theorem runs_against_counters (df : Frame Ledger.Delivery)
    (batsman bowler : string) (stats : Stats) (status : string) :
  let h2h :=
    filter (λ d, Ledger.striker d = batsman ∧ Ledger.bowler d = bowler)
      (rows df) in
  analyze_matchup df batsman bowler = inr (Some stats, status) →
  - 2 ^ 63 ≤ Runs_Scored stats < 2 ^ 63
  ∧ ((∀ d, d ∈ h2h → 0 ≤ Ledger.runs_off_bat d) →
     foldr Z.add 0 (Ledger.runs_off_bat <$> h2h) < 2 ^ 63 →
     Runs_Scored stats = foldr Z.add 0 (Ledger.runs_off_bat <$> h2h)
     ∧ 0 ≤ Runs_Scored stats
     ∧ 4 * Boundaries stats ≤ Runs_Scored stats
     ∧ (Runs_Scored stats = 0 ↔ Dots stats = Balls_Faced stats)).
Proof.
  intros h2h H.
  apply MatchupFacts.analyze_matchup_returns in H as (_ & _ & [H|H]).
  { destruct H as (_ & H & _). discriminate H. }
  destruct H as (_ & _ & _ & [= ->] & _).
  change (Ledger.head_to_head (rows df) batsman bowler) with h2h.
  clearbody h2h.
  cbn [stats_of Balls_Faced Runs_Scored Dots Boundaries].
  split.
  { rewrite Int64Facts.sum_runs_wrap. apply Int64Facts.wrap64_range. }
  intros Hpos Hfit. rewrite <- Int64Facts.exact_runs_fmap in *.
  pose proof (runs_bounds h2h Hpos) as (B1 & B2 & B3).
  rewrite Int64Facts.sum_runs_exact by lia. tauto.
Qed.

Lemma runs_against_counters_witness :
  ∃ stats,
    analyze_matchup (ledger five_balls) "A" "B"
    = inr (Some stats, H2H_FOUND)
    ∧ Runs_Scored stats = 11
    ∧ 4 * Boundaries stats ≤ Runs_Scored stats.
Proof.
  eexists. split; [vm_compute; reflexivity|].
  edestruct (runs_against_counters (ledger five_balls) "A" "B")
    as (_ & Hexact); [vm_compute; reflexivity|].
  destruct Hexact as (Hsum & _ & Hfour & _).
  - intros d Hd. vm_compute in Hd.
    repeat (apply elem_of_cons in Hd as [->|Hd]; [cbn; lia|]).
    by apply elem_of_nil in Hd.
  - vm_compute. reflexivity.
  - split; [exact Hsum|exact Hfour].
Defined.

Lemma count_Permutation (P : Ledger.Delivery → Prop)
    `{!∀ d, Decision (P d)} (l l' : list Ledger.Delivery) :
  l ≡ₚ l' → Ledger.count P l = Ledger.count P l'.
Proof. intros Hp. unfold Ledger.count. by rewrite Hp. Qed.

Lemma stats_of_Permutation (l l' : list Ledger.Delivery) :
  l ≡ₚ l' → stats_of l = stats_of l'.
Proof.
  intros Hh. unfold stats_of.
  rewrite (Int64Facts.sum_runs_Permutation _ _ Hh), (Permutation_length Hh),
    !(count_Permutation _ _ _ Hh).
  reflexivity.
Qed.

(** X8. The result does not depend on the order of the rows of the table. *)
Theorem analyze_matchup_order_free (df df' : Frame Ledger.Delivery)
    (batsman bowler : string) :
  columns df = columns df' →
  rows df ≡ₚ rows df' →
  analyze_matchup df batsman bowler = analyze_matchup df' batsman bowler.
Proof.
  intros Hc Hp.
  assert (Hh : Ledger.head_to_head (rows df) batsman bowler
               ≡ₚ Ledger.head_to_head (rows df') batsman bowler)
    by (unfold Ledger.head_to_head; by rewrite Hp).
  unfold analyze_matchup, has_column. rewrite Hc.
  destruct (Ledger.head_to_head (rows df) batsman bowler) as [|d l] eqn:E,
    (Ledger.head_to_head (rows df') batsman bowler) as [|d' l'] eqn:E'.
  - reflexivity.
  - by apply Permutation_nil_cons in Hh.
  - symmetry in Hh. by apply Permutation_nil_cons in Hh.
  - pose proof (stats_of_Permutation _ _ Hh) as Hs.
    unfold stats_of in Hs. by rewrite Hs.
Qed.

Lemma analyze_matchup_order_free_witness :
  analyze_matchup (ledger (reverse five_balls)) "A" "B"
  = analyze_matchup (ledger five_balls) "A" "B".
Proof.
  apply analyze_matchup_order_free; [reflexivity|].
  apply reverse_Permutation.
Defined.

(** X9. A delivery of another batter or another bowler, wherever it stands in
    the table, changes nothing in the result for the pair. *)
Theorem other_pairs_do_not_count (labels : list string) (idx idx' : list Z)
    (before after : list Ledger.Delivery)
    (d : Ledger.Delivery) (batsman bowler : string) :
  ¬ (Ledger.striker d = batsman ∧ Ledger.bowler d = bowler) →
  analyze_matchup
    {| columns := labels; index := idx; rows := before ++ d :: after |}
    batsman bowler
  = analyze_matchup
      {| columns := labels; index := idx'; rows := before ++ after |}
      batsman bowler.
Proof.
  intros Hd. unfold analyze_matchup, has_column, Ledger.head_to_head.
  cbn [columns rows].
  by rewrite !filter_app, filter_cons_False.
Qed.

Lemma other_pairs_do_not_count_witness :
  analyze_matchup
    {| columns := LEDGER_COLUMNS; index := seqZ 0 8;
       rows := [] ++ delivery 0.2 "C" "B" 2 :: five_balls |} "A" "B"
  = analyze_matchup
      {| columns := LEDGER_COLUMNS; index := seqZ 0 7;
         rows := [] ++ five_balls |} "A" "B".
Proof.
  apply other_pairs_do_not_count. cbn. intros [H _]. discriminate H.
Defined.

End StatsFacts.
(** ** Strings: what [endswith] and [in] decide *)

Module StringFacts.
Import Ingest.

Lemma prefix_iff (a s : string) :
  String.prefix a s = true ↔ ∃ q, s = a +:+ q.
Proof.
  revert s. induction a as [|c a IH]; intros s.
  - split; [intros _; by exists s|by destruct s].
  - destruct s as [|c' s].
    + split; [discriminate|]. intros [q Hq]. discriminate Hq.
    + change (String.prefix (String c a) (String c' s))
        with (if Ascii.ascii_dec c c' then String.prefix a s else false).
      destruct (Ascii.ascii_dec c c') as [->|Hc].
      * rewrite IH. split; intros [q Hq]; exists q.
        -- by rewrite Hq.
        -- by injection Hq.
      * split; [discriminate|]. intros [q Hq]. injection Hq as ? _. congruence.
Qed.

(** [needle in s] holds exactly when [s] is some text, then [needle], then
    some text. *)
Lemma contains_iff (needle s : string) :
  contains needle s = true ↔ ∃ p q, s = p +:+ needle +:+ q.
Proof.
  induction s as [|c s IH]; cbn [contains]; rewrite orb_true_iff, prefix_iff.
  - split.
    + intros [[q Hq]|H]; [|discriminate H]. by exists "", q.
    + intros (p & q & H). left. destruct p; [by exists q|discriminate H].
  - rewrite IH. split.
    + intros [[q Hq]|(p & q & Hq)]; [by exists "", q|].
      exists (String c p), q. cbn. by rewrite Hq.
    + intros (p & q & H). destruct p as [|c' p]; [left; by exists q|].
      right. exists p, q. by injection H.
Qed.

Lemma substring_0_length (t : string) :
  String.substring 0 (String.length t) t = t.
Proof. induction t as [|c t IH]; [reflexivity|]. simpl. by rewrite IH. Qed.

Lemma substring_append_r (p t : string) :
  String.substring (String.length p) (String.length t) (p +:+ t) = t.
Proof. induction p as [|c p IH]; simpl; [apply substring_0_length|exact IH]. Qed.

Lemma length_append (p t : string) :
  String.length (p +:+ t) = (String.length p + String.length t)%nat.
Proof. induction p as [|c p IH]; [reflexivity|]. simpl. by rewrite IH. Qed.

Lemma substring_split (s : string) (k : nat) :
  (k ≤ String.length s)%nat →
  s = String.substring 0 k s
      +:+ String.substring k (String.length s - k) s.
Proof.
  revert k. induction s as [|c s IH]; intros k Hk.
  - simpl in Hk. by replace k with 0%nat by lia.
  - destruct k as [|k].
    + simpl. by rewrite substring_0_length.
    + simpl in *.
      transitivity (String c (String.substring 0 k s
                    +:+ String.substring k (String.length s - k) s));
        [f_equal; apply IH; lia|reflexivity].
Qed.

(** [s.endswith(t)] holds exactly when [s] is some text followed by [t]. *)
Lemma endswith_iff (s t : string) :
  endswith s t = true ↔ ∃ p, s = p +:+ t.
Proof.
  unfold endswith. rewrite andb_true_iff, Nat.leb_le, String.eqb_eq. split.
  - intros [Hle Hsub].
    exists (String.substring 0 (String.length s - String.length t) s).
    pose proof (substring_split s (String.length s - String.length t)) as Hs.
    replace (String.length s - (String.length s - String.length t))%nat
      with (String.length t) in Hs by lia.
    rewrite Hsub in Hs. apply Hs. lia.
  - intros [p ->]. rewrite length_append. split; [lia|].
    replace (String.length p + String.length t - String.length t)%nat
      with (String.length p) by lia.
    apply substring_append_r.
Qed.

Lemma append_assoc (a b c : string) : (a +:+ b) +:+ c = a +:+ b +:+ c.
Proof.
  induction a as [|x a IH]; [reflexivity|].
  change (String x ((a +:+ b) +:+ c) = String x (a +:+ b +:+ c)).
  by rewrite IH.
Qed.

(** X10. A name is read as a match file exactly when it is some text followed by
    ".csv", is not some text followed by "_info.csv", and has no "README"
    anywhere in it. *)
Theorem match_file_names (name : string) :
  is_match_file name = true ↔
  (∃ stem, name = stem +:+ ".csv")
  ∧ ¬ (∃ stem, name = stem +:+ "_info.csv")
  ∧ ¬ (∃ before after, name = before +:+ "README" +:+ after).
Proof.
  rewrite IngestFacts.is_match_file_spec.
  rewrite <- endswith_iff, <- contains_iff, <- endswith_iff.
  rewrite <- !not_true_iff_false. reflexivity.
Qed.

(** A name without "info" in it does not end in "_info.csv": whatever the
    plain loader's name test lets through, the info-file test of the robust
    loader lets through too. *)
Lemma no_info_not_info_file (name : string) :
  contains "info" name = false → endswith name "_info.csv" = false.
Proof.
  intros Hc. apply not_true_iff_false. intros [p ->]%endswith_iff.
  apply not_true_iff_false in Hc. apply Hc. apply contains_iff.
  exists (p +:+ "_"), ".csv". by rewrite append_assoc.
Qed.

(** X11. A name that ends in "_info.csv" is read by neither loader: the robust
    one rejects it as an info file and the plain one because it contains
    "info". *)
Theorem info_files_read_by_neither (stem : string) :
  is_match_file (stem +:+ "_info.csv") = false
  ∧ contains "info" (stem +:+ "_info.csv") = true.
Proof.
  split.
  - apply not_true_iff_false.
    intros (_ & Hn & _)%IngestFacts.is_match_file_spec.
    apply not_true_iff_false in Hn. apply Hn, endswith_iff. by exists stem.
  - destruct (contains "info" (stem +:+ "_info.csv")) eqn:E; [reflexivity|].
    apply no_info_not_info_file in E. apply not_true_iff_false in E.
    destruct E. apply endswith_iff. by exists stem.
Qed.

End StringFacts.

(** ** robust_cricaii.py: more on ingestion *)

Module LedgerShape.
Import Ingest.

Section Shape.
Context {Row : Type}.
Implicit Types (m : Member Row) (df : Frame Row).

(** The column labels [pd_concat] gives, starting from the labels [acc]. *)
Lemma elem_of_union_columns (acc : list string) (frames : list (Frame Row))
    (c : string) :
  c ∈ foldl (λ acc df, acc ++ filter (λ c, c ∉ acc) (columns df)) acc frames
  ↔ c ∈ acc ∨ ∃ df, df ∈ frames ∧ c ∈ columns df.
Proof.
  revert acc. induction frames as [|df frames IH]; intros acc; cbn.
  - split; [auto|]. intros [?|(df & Hdf & _)]; [assumption|].
    by apply elem_of_nil in Hdf.
  - rewrite IH, elem_of_app, list_elem_of_filter. split.
    + intros [[?|[_ ?]]|(df' & ? & ?)]; eauto using list_elem_of_here,
        list_elem_of_further.
    + intros [?|(df' & Hdf & ?)]; [auto|].
      apply elem_of_cons in Hdf as [->|?]; [|eauto].
      destruct (decide (c ∈ acc)); auto.
Qed.

Lemma match_data_list_spec (namelist : list (Member Row)) df :
  df ∈ foldl visit [] (take 150 namelist)
  ↔ ∃ m, m ∈ take 150 namelist ∧ accepted m = Some df.
Proof.
  rewrite IngestFacts.foldl_visit, app_nil_l. apply list_elem_of_omap.
Qed.

(** X12. Members after the 150th are never opened: names added behind a list of
    150 or more leave the ledger as it is. *)
Theorem cap_at_150 (namelist more : list (Member Row)) :
  (150 ≤ length namelist)%nat →
  get_cleaned_data (namelist ++ more) = get_cleaned_data namelist.
Proof.
  intros Hlen. unfold get_cleaned_data. by rewrite take_app_le.
Qed.

Lemma ledger_columns_iff (namelist : list (Member Row)) (c : string) :
  c ∈ columns (get_cleaned_data namelist)
  ↔ ∃ m df, m ∈ take 150 namelist ∧ accepted m = Some df ∧ c ∈ columns df.
Proof.
  unfold get_cleaned_data.
  destruct (foldl visit [] (take 150 namelist)) as [|df frames] eqn:E.
  - cbn. split; [intros H; by apply elem_of_nil in H|].
    intros (m & df & Hm & Ha & _).
    assert (Hin : df ∈ foldl visit [] (take 150 namelist))
      by (apply match_data_list_spec; eauto).
    rewrite E in Hin. by apply elem_of_nil in Hin.
  - cbn [pd_concat columns]. rewrite elem_of_union_columns. split.
    + intros [H|(df' & Hdf & Hc)]; [by apply elem_of_nil in H|].
      rewrite <- E in Hdf. apply match_data_list_spec in Hdf as (m & ? & ?).
      eauto.
    + intros (m & df' & Hm & Ha & Hc). right. exists df'.
      split; [|exact Hc]. rewrite <- E. apply match_data_list_spec. eauto.
Qed.

(** X13. The ledger is the empty frame, with no column and no row, exactly when
    none of the first 150 members is accepted; this covers the empty
    archive. *)
Theorem empty_ledger_iff (namelist : list (Member Row)) :
  get_cleaned_data namelist = empty_frame
  ↔ ∀ m, m ∈ take 150 namelist → accepted m = None.
Proof.
  split.
  - intros Heq m Hm. destruct (accepted m) as [df|] eqn:Ha; [|reflexivity].
    pose proof Ha as (_ & _ & Hs & _)%IngestFacts.accepted_Some.
    assert (Hc : "striker" ∈ columns (get_cleaned_data namelist))
      by (apply ledger_columns_iff; eauto).
    rewrite Heq in Hc. by apply elem_of_nil in Hc.
  - intros Hall. unfold get_cleaned_data.
    rewrite IngestFacts.foldl_visit, app_nil_l.
    destruct (omap accepted (take 150 namelist)) as [|df frames] eqn:E;
      [reflexivity|].
    assert (Hin : df ∈ omap accepted (take 150 namelist))
      by (rewrite E; left).
    apply list_elem_of_omap in Hin as (m & Hm & Ha).
    rewrite (Hall m Hm) in Ha. discriminate Ha.
Qed.

(** X14. A column label of the ledger is a column label of some accepted member,
    and back; so a ledger that has any row has the striker and the bowler
    column that the dashboard reads. *)
Theorem ledger_columns (namelist : list (Member Row)) :
  (∀ c, c ∈ columns (get_cleaned_data namelist)
        ↔ ∃ m df, m ∈ take 150 namelist ∧ accepted m = Some df
                  ∧ c ∈ columns df)
  ∧ (rows (get_cleaned_data namelist) ≠ [] →
     "striker" ∈ columns (get_cleaned_data namelist)
     ∧ "bowler" ∈ columns (get_cleaned_data namelist)).
Proof.
  split; [apply ledger_columns_iff|]. intros Hrows.
  rewrite IngestFacts.rows_get_cleaned_data in Hrows.
  destruct (omap accepted (take 150 namelist)) as [|df frames] eqn:E;
    [done|].
  assert (Hin : df ∈ omap accepted (take 150 namelist)) by (rewrite E; left).
  apply list_elem_of_omap in Hin as (m & Hm & Ha).
  pose proof Ha as (_ & _ & Hs & Hb)%IngestFacts.accepted_Some.
  split; apply ledger_columns_iff; eauto.
Qed.

End Shape.

Lemma cap_at_150_witness :
  get_cleaned_data (replicate 150 match_335982 ++ [match_without_bowler])
  = get_cleaned_data (replicate 150 match_335982).
Proof. apply cap_at_150. rewrite length_replicate. lia. Defined.

End LedgerShape.

(** ** robust_cricai.py: the plain loader *)

Module LoaderFacts.
Import Ingest Loader.

Section Plain.
Context {Row : Type}.
Implicit Types (m : Member Row) (df : Frame Row).

(** X15. The plain loader fails exactly when it has nothing to concatenate or
    when one of the members it reads (first 100 names, no "info" in the
    name) does not parse: one unreadable file loses the whole table. When it
    returns, the table holds the rows of every member it read, in order,
    whatever their columns are. *)
Theorem plain_loader_outcome (namelist : list (Member Row)) :
  (get_historical_data namelist = None
   ↔ selected namelist = []
     ∨ ∃ m, m ∈ selected namelist ∧ read_csv m = None)
  ∧ (∀ data, get_historical_data namelist = Some data →
       (∀ m, m ∈ selected namelist → is_Some (read_csv m))
       ∧ rows data = concat (rows <$> omap read_csv (selected namelist))).
Proof.
  unfold get_historical_data. fold (selected namelist).
  destruct (mapM read_csv (selected namelist)) as [frames|] eqn:E; cbn.
  - pose proof E as HF%mapM_Some_1.
    assert (Hall : ∀ m, m ∈ selected namelist → is_Some (read_csv m)).
    { intros m Hm.
      assert (Hs : is_Some (mapM read_csv (selected namelist))) by eauto.
      apply mapM_is_Some_1 in Hs. rewrite Forall_forall in Hs.
      by apply Hs. }
    assert (Hom : omap read_csv (selected namelist) = frames).
    { clear -HF. induction HF as [|m df l k Hm _ IH]; [reflexivity|].
      cbn. by rewrite Hm, IH. }
    split.
    + split.
      * destruct frames as [|df frames]; [|discriminate].
        intros _. left. by apply Forall2_nil_inv_r in HF.
      * intros [Hnil|(m & Hm & Hr)].
        -- rewrite Hnil in E. cbn in E. by injection E as <-.
        -- destruct (Hall m Hm) as [? Hs]. congruence.
    + intros data Hd. split; [exact Hall|]. rewrite Hom.
      destruct frames; [discriminate|]. by injection Hd as <-.
  - split; [|discriminate]. split; [intros _|reflexivity].
    right. apply mapM_None_1, Exists_exists in E as (m & Hm & Hr). eauto.
Qed.

Lemma clean_archive_reads (l : list (Member Row)) :
  (∀ m, m ∈ l →
     contains "info" (filename m) = false ∧ is_Some (accepted m)) →
  filter (λ m, contains "info" (filename m) = false) l = l
  ∧ mapM read_csv l = Some (omap accepted l)
  ∧ omap read_csv l = omap accepted l.
Proof.
  induction l as [|m l IH]; intros Hl; [done|].
  destruct (Hl m) as [Hi [df Ha]]; [left|].
  destruct IH as (IH1 & IH2 & IH3); [intros x Hx; apply Hl; by right|].
  pose proof Ha as (Hr & _)%IngestFacts.accepted_Some.
  split; [|split].
  - by rewrite filter_cons_True, IH1.
  - cbn. rewrite Hr, Ha. cbn. by rewrite IH2.
  - cbn. rewrite Hr, Ha. by rewrite IH3.
Qed.

(** X16. On an archive of at most 100 members, none with "info" in its name and
    each accepted by the robust loader, the two loaders build tables with
    the same columns and the same rows in the same order. The tables differ
    in their index only: the robust loader numbers the rows 0, 1, 2, ...,
    the plain loader keeps the index each row had in its own file; the two
    tables are equal exactly when these indexes coincide. *)
Theorem loaders_agree_on_clean_archives (namelist : list (Member Row)) :
  namelist ≠ [] → (length namelist ≤ 100)%nat →
  (∀ m, m ∈ namelist →
     contains "info" (filename m) = false ∧ is_Some (accepted m)) →
  ∃ data,
    get_historical_data namelist = Some data
    ∧ columns data = columns (get_cleaned_data namelist)
    ∧ rows data = rows (get_cleaned_data namelist)
    ∧ rows data = concat (rows <$> omap read_csv namelist)
    ∧ index data = concat (index <$> omap read_csv namelist)
    ∧ index (get_cleaned_data namelist)
      = seqZ 0 (Z.of_nat (length (rows data)))
    ∧ (data = get_cleaned_data namelist
       ↔ concat (index <$> omap read_csv namelist)
         = seqZ 0 (Z.of_nat (length (rows data)))).
Proof.
  intros Hne Hlen Hall.
  destruct (clean_archive_reads namelist Hall) as (Hf & Hm & Ho).
  unfold get_historical_data, selected, get_cleaned_data.
  rewrite !take_ge by lia. rewrite Hf, Hm, Ho. cbn.
  rewrite IngestFacts.foldl_visit, app_nil_l.
  destruct (omap accepted namelist) as [|df frames] eqn:E.
  { destruct namelist as [|m l]; [done|].
    destruct (Hall m) as [_ [df Ha]]; [left|]. cbn in E.
    rewrite Ha in E. discriminate E. }
  eexists. split; [reflexivity|]. cbn [pd_concat columns rows index].
  repeat (split; [reflexivity|]).
  split; [intros H; apply (f_equal index) in H; exact H|].
  intros H. f_equal. exact H.
Qed.

End Plain.

Lemma loaders_agree_on_clean_archives_witness :
  ∃ data,
    get_historical_data [match_335982; match_335984] = Some data
    ∧ rows data = rows (get_cleaned_data [match_335982; match_335984])
    ∧ index data = [0; 1; 0]
    ∧ index (get_cleaned_data [match_335982; match_335984]) = [0; 1; 2].
Proof.
  destruct (loaders_agree_on_clean_archives [match_335982; match_335984])
    as (data & Hd & _ & Hr & _ & Hi & Hc & _);
    [discriminate|cbn; lia| |].
  - intros m Hm.
    apply elem_of_cons in Hm as [->|Hm];
      [|apply list_elem_of_singleton in Hm as ->];
      (split; [reflexivity|by eexists]).
  - exists data. split; [exact Hd|]. split; [exact Hr|].
    split; [exact Hi|]. rewrite Hc, Hr. reflexivity.
Defined.

End LoaderFacts.
(** ** robust_cricaii.py: the scouting dashboard *)

Module ScoutFacts.
Import PyNum Ingest Scout.

(** [str_le] is a total order. *)
Lemma leb_trans (a b c : string) :
  String.leb a b = true → String.leb b c = true → String.leb a c = true.
Proof.
  unfold String.leb. revert b c.
  induction a as [|x a IH]; intros [|y b] [|z c]; simpl; try done.
  unfold Ascii.compare.
  destruct (N.compare_spec (Ascii.N_of_ascii x) (Ascii.N_of_ascii y)),
    (N.compare_spec (Ascii.N_of_ascii y) (Ascii.N_of_ascii z)),
    (N.compare_spec (Ascii.N_of_ascii x) (Ascii.N_of_ascii z));
    try done; try lia.
  apply IH.
Qed.

#[local] Instance str_le_total : Total str_le.
Proof. intros a b. apply String.leb_total. Qed.

#[local] Instance str_le_trans : Transitive str_le.
Proof. intros a b c. apply leb_trans. Qed.

#[local] Instance str_le_antisym : AntiSymm (=) str_le.
Proof. intros a b. apply String.leb_antisym. Qed.

Lemma unique_from (seen l : list string) :
  let u :=
    foldl (λ seen x, if decide (x ∈ seen) then seen else seen ++ [x]) seen l
  in
  (∀ x, x ∈ u ↔ x ∈ seen ∨ x ∈ l) ∧ (NoDup seen → NoDup u).
Proof.
  revert seen. induction l as [|a l IH]; intros seen; cbn.
  - split; [|auto]. intros x. rewrite elem_of_nil. tauto.
  - destruct (decide (a ∈ seen)) as [Ha|Ha].
    + destruct (IH seen) as [IH1 IH2]. split; [|exact IH2].
      intros x. rewrite IH1, elem_of_cons.
      split; [tauto|]. intros [?|[->|?]]; auto.
    + destruct (IH (seen ++ [a])) as [IH1 IH2]. split.
      * intros x.
        rewrite IH1, elem_of_app, (elem_of_cons l), list_elem_of_singleton.
        tauto.
      * intros Hnd. apply IH2. apply NoDup_app. split; [exact Hnd|].
        split; [|apply NoDup_singleton].
        intros x Hx ->%list_elem_of_singleton. contradiction.
Qed.

Lemma unique_spec (l : list string) :
  (∀ x, x ∈ unique l ↔ x ∈ l) ∧ NoDup (unique l).
Proof.
  destruct (unique_from [] l) as [H1 H2]. split.
  - intros x. unfold unique. rewrite H1, elem_of_nil. tauto.
  - apply H2, NoDup_nil_2.
Qed.

Lemma sorted_unique_spec (l : list string) :
  Sorted str_le (merge_sort str_le (unique l))
  ∧ NoDup (merge_sort str_le (unique l))
  ∧ (∀ x, x ∈ merge_sort str_le (unique l) ↔ x ∈ l)
  ∧ (∀ k, Sorted str_le k → NoDup k → (∀ x, x ∈ k ↔ x ∈ l) →
       k = merge_sort str_le (unique l)).
Proof.
  destruct (unique_spec l) as [Hel Hnd].
  pose proof (merge_sort_Permutation str_le (unique l)) as Hp.
  split; [apply Sorted_merge_sort, _|]. split; [by rewrite Hp|].
  split; [intros x; by rewrite Hp|].
  intros k Hs Hk Hx. apply (Sorted_unique str_le); [exact Hs| |].
  - apply Sorted_merge_sort, _.
  - rewrite Hp. apply NoDup_Permutation; [exact Hk|exact Hnd|].
    intros x. by rewrite Hx, Hel.
Qed.

(** X17. The batsman box offers each striker of the table once, in ascending
    string order, and nothing else: a name is offered exactly when the table
    has a row for it, so the rows of a chosen batsman are never empty. The
    list is the only duplicate-free ascending arrangement of the strikers. *)
Theorem batsman_options (data : list Ledger.Delivery) :
  Sorted str_le (all_batsmen data)
  ∧ NoDup (all_batsmen data)
  ∧ (∀ name, name ∈ all_batsmen data ↔ b_stats data name ≠ [])
  ∧ (all_batsmen data = [] ↔ data = [])
  ∧ (∀ k, Sorted str_le k → NoDup k →
       (∀ name, name ∈ k ↔ ∃ d, d ∈ data ∧ Ledger.striker d = name) →
       k = all_batsmen data).
Proof.
  destruct (sorted_unique_spec (Ledger.striker <$> data))
    as (Hs & Hnd & Hel & Huniq).
  fold (all_batsmen data) in Hs, Hnd, Hel, Huniq.
  assert (Hrows : ∀ name, name ∈ all_batsmen data ↔ b_stats data name ≠ []).
  { intros name. rewrite Hel, list_elem_of_fmap. unfold b_stats. split.
    - intros (d & -> & Hd) Hnil.
      assert (Hin : d ∈ filter (λ d0, Ledger.striker d0 = Ledger.striker d) data)
        by (apply list_elem_of_filter; auto).
      rewrite Hnil in Hin. by apply elem_of_nil in Hin.
    - intros Hne.
      destruct (filter (λ d, Ledger.striker d = name) data) as [|d l] eqn:E;
        [done|].
      assert (Hin : d ∈ filter (λ d, Ledger.striker d = name) data)
        by (rewrite E; left).
      apply list_elem_of_filter in Hin as [<- Hin]. eauto. }
  split; [exact Hs|]. split; [exact Hnd|]. split; [exact Hrows|]. split.
  - split.
    + intros Hnil. destruct data as [|d data]; [reflexivity|]. exfalso.
      assert (Hd : Ledger.striker d ∈ all_batsmen (d :: data))
        by (apply Hel; left).
      rewrite Hnil in Hd. by apply elem_of_nil in Hd.
    + intros ->. reflexivity.
  - intros k Hk Hkn Hkx. apply Huniq; [exact Hk|exact Hkn|].
    intros x. rewrite Hkx, list_elem_of_fmap. split.
    + intros (d & ? & ?). eauto.
    + intros (d & -> & ?). eauto.
Qed.

(** X18. A batter with no delivery in the Death phase is never shown the "Elite
    Death Over Accelerator" line: the mean of no rows is NaN and the test
    [> 180] fails on it. *)
Theorem no_death_rows_no_accelerator (data : list Ledger.Delivery)
    (batsman : string) :
  (∀ d, d ∈ data → Ledger.striker d = batsman →
        cut (Ledger.ball d) ≠ Some "Death") →
  elite_death_accelerator data batsman = false.
Proof.
  intros Hno. unfold elite_death_accelerator, death_sr.
  rewrite (IngestFacts.filter_none _ (b_stats data batsman)).
  - reflexivity.
  - intros d [Hs Hd]%list_elem_of_filter. by apply Hno.
Qed.

Lemma no_death_rows_no_accelerator_witness :
  elite_death_accelerator first_over "A" = false.
Proof.
  apply no_death_rows_no_accelerator. intros d Hd _. unfold first_over in Hd.
  repeat (apply elem_of_cons in Hd as [->|Hd];
          [vm_compute; discriminate|]).
  by apply elem_of_nil in Hd.
Defined.

(** X19. The phase table does not depend on the order of the rows. *)
Theorem phase_table_order_free (data data' : list Ledger.Delivery)
    (batsman : string) :
  data ≡ₚ data' →
  phase_performance data batsman = phase_performance data' batsman.
Proof.
  intros Hp. unfold phase_performance.
  apply list_fmap_ext. intros _ phase _. f_equal.
  apply Int64Facts.sum_runs_Permutation. by rewrite Hp.
Qed.

Lemma phase_table_order_free_witness :
  phase_performance (reverse first_over) "A"
  = phase_performance first_over "A".
Proof. apply phase_table_order_free, reverse_Permutation. Defined.

Lemma exact_runs_split (P : Ledger.Delivery → Prop)
    `{!∀ d, Decision (P d)} (l : list Ledger.Delivery) :
  Ledger.exact_runs (filter P l) + Ledger.exact_runs (filter (λ d, ¬ P d) l)
  = Ledger.exact_runs l.
Proof.
  unfold Ledger.exact_runs. induction l as [|a l IH]; [reflexivity|].
  rewrite !filter_cons. destruct (decide (P a)) as [Ha|Ha].
  - rewrite decide_False by tauto. cbn. lia.
  - rewrite decide_True by assumption. cbn. lia.
Qed.

Lemma dropped_rows (l : list Ledger.Delivery) :
  filter (λ d, cut (Ledger.ball d) = None) l
  = filter (λ d, ¬ in_bins (Ledger.ball d) = true) l.
Proof.
  apply list_filter_iff. intros d.
  rewrite IngestFacts.cut_None_iff. by destruct (in_bins _).
Qed.

(** X20. Every run of the batter is in exactly one place: the three phase lines
    together with the runs of the rows positioned outside (0,20] (position
    0 or below, above 20, or missing) make up the runs of all the rows of
    the batter. In the int64 arithmetic of the sums this holds modulo 2^64;
    it holds exactly when no row has negative runs and the runs of the
    batter add up to less than 2^63. *)
Theorem runs_binned_or_dropped (data : list Ledger.Delivery)
    (batsman : string) :
  let table := phase_performance data batsman in
  let dropped :=
    filter (λ d, cut (Ledger.ball d) = None) (b_stats data batsman) in
  let total :=
    foldr Z.add 0 (Ledger.runs_off_bat <$> b_stats data batsman) in
  Ledger.wrap64 (total_runs table + Ledger.sum_runs dropped)
  = Ledger.sum_runs (b_stats data batsman)
  ∧ Ledger.sum_runs (b_stats data batsman) = Ledger.wrap64 total
  ∧ ((∀ d, d ∈ b_stats data batsman → 0 ≤ Ledger.runs_off_bat d) →
     total < 2 ^ 63 →
     total_runs table + foldr Z.add 0 (Ledger.runs_off_bat <$> dropped)
     = total
     ∧ Ledger.sum_runs dropped
       = foldr Z.add 0 (Ledger.runs_off_bat <$> dropped)
     ∧ Ledger.sum_runs (b_stats data batsman) = total).
Proof.
  intros table dropped total.
  change table with (phase_lines (b_stats data batsman)).
  unfold dropped, total. rewrite <- !Int64Facts.exact_runs_fmap.
  set (l := b_stats data batsman). rewrite dropped_rows.
  pose proof (exact_runs_split (λ d, in_bins (Ledger.ball d) = true) l)
    as Hsplit.
  split; [|split; [apply Int64Facts.sum_runs_wrap|]].
  - rewrite (Int64Facts.sum_runs_wrap l), <- Hsplit.
    rewrite (Int64Facts.sum_runs_wrap (filter _ l)).
    rewrite Int64Facts.wrap64_add_r.
    rewrite <- Int64Facts.wrap64_add, IngestFacts.phase_lines_total.
    rewrite Int64Facts.sum_runs_wrap.
    by rewrite Int64Facts.wrap64_add.
  - intros Hpos Hfit.
    pose proof (Int64Facts.exact_runs_filter_le
                  (λ d, in_bins (Ledger.ball d) = true) l Hpos) as Hin.
    pose proof (Int64Facts.exact_runs_filter_le
                  (λ d, ¬ in_bins (Ledger.ball d) = true) l Hpos) as Hout.
    rewrite IngestFacts.phase_lines_total_exact by (assumption || lia).
    rewrite !Int64Facts.sum_runs_exact by lia.
    split; [exact Hsplit|]. split; reflexivity.
Qed.

End ScoutFacts.
